(** * update-activity tool of strava-mcp: a shallow embedding

    Source: [src/tools/updateActivity.ts].  The file declares an input
    schema (zod), a text formatter for the activity returned by Strava and
    the asynchronous handler [updateActivityTool.execute].

    Conventions of the embedding:
    - a JavaScript [number] is an IEEE-754 binary64 value, Rocq's primitive
      [float]; the renderings [Number::toString], [toFixed] and
      [Math.round] follow ECMA-262 and are computed exactly;
    - a JavaScript string is a Rocq [string]: the sequence of bytes of its
      UTF-8 encoding, on which concatenation, equality, [includes] and
      [startsWith] of well-formed strings agree with JavaScript's;
    - [undefined] in an optional position is [None]; [null] is a value of
      its own;
    - plain data objects are finite maps from property names to values;
    - the handler's effects (console lines, the outbound call) are written
      to a trace, and its promise settles as [Fulfilled] or [Rejected]. *)

From Stdlib Require Import ZArith QArith Qround Qabs Qpower Lqa.
From Stdlib Require Import Floats String Ascii List.
From stdpp Require Import gmap strings.

Set Warnings "-inexact-float".

(* ================================================================== *)
(** ** Strings *)

Module JsString.

(** The line feed of the template literals' [\n]. *)
Definition nl : string := String (ascii_of_nat 10) EmptyString.

(** [String.prototype.includes]: [needle] occurs in [s]. *)
Fixpoint includes (s needle : string) : bool :=
  match s with
  | EmptyString => String.prefix needle EmptyString
  | String _ rest => String.prefix needle s || includes rest needle
  end.

(** [String.prototype.startsWith]. *)
Definition startsWith (s pre : string) : bool := String.prefix pre s.

(** Truthiness of a string: every string but the empty one. *)
Definition truthy (s : string) : bool :=
  match s with EmptyString => false | String _ _ => true end.

End JsString.

(* ================================================================== *)
(** ** Numbers *)

Module JsNumber.

Local Open Scope Z_scope.

Definition number : Type := float.

(** Truthiness of a number: everything but [+0], [-0] and [NaN]. *)
Definition truthy (x : number) : bool :=
  negb (PrimFloat.is_zero x || PrimFloat.is_nan x).

(** The real number denoted by the finite double [m * 2^e]. *)
Definition toQ (m : positive) (e : Z) : Q :=
  (inject_Z (Z.pos m) * Qpower 2 e)%Q.

Definition digit_char (d : Z) : ascii := ascii_of_nat (48 + Z.to_nat d).

Fixpoint digits_go (fuel : nat) (n : Z) (acc : string) : string :=
  match fuel with
  | O => acc
  | S fuel' =>
      let acc' := String (digit_char (n mod 10)) acc in
      if n / 10 =? 0 then acc' else digits_go fuel' (n / 10) acc'
  end.

(** The decimal representation of a non-negative integer. *)
Definition decimal (n : Z) : string :=
  digits_go (S (Z.to_nat (Z.log2 n))) n EmptyString.

Definition zeros (n : Z) : string :=
  string_of_list_ascii (repeat "0"%char (Z.to_nat n)).

(** [v] lies in the set of reals that round (to nearest, ties to even)
    to the double [m * 2^e]. *)
Definition in_rounding_interval (m : positive) (e : Z) (v : Q) : bool :=
  let below :=
    if (Z.pos m =? 2 ^ 52) && (-1074 <? e) then (1 # 4)%Q else (1 # 2)%Q in
  let lo := ((inject_Z (Z.pos m) - below) * Qpower 2 e)%Q in
  let hi := ((inject_Z (Z.pos m) + (1 # 2)) * Qpower 2 e)%Q in
  if Z.even (Z.pos m) then Qle_bool lo v && Qle_bool v hi
  else negb (Qle_bool v lo) && negb (Qle_bool hi v).

(** The least [n], from a start below it, with [x < 10^n]. *)
Fixpoint decimal_exponent (fuel : nat) (n : Z) (x : Q) : Z :=
  match fuel with
  | O => n
  | S fuel' =>
      if Qle_bool (Qpower 10%Q n) x then decimal_exponent fuel' (n + 1) x
      else n
  end.

Definition normalise (k : Z) (sn : Z * Z) : Z * Z :=
  let (s, n) := sn in if s =? 10 ^ k then (s / 10, n + 1) else sn.

(** A [k]-digit significand [s] and exponent [n] with [s * 10^(n-k)]
    rounding to the double, the closest to it when there are two. *)
Definition candidate (m : positive) (e : Z) (n0 k : Z) : option (Z * Z) :=
  let x := toQ m e in
  let unit := Qpower 10%Q (n0 - k) in
  let s_lo := Qfloor (x / unit)%Q in
  let s_hi := s_lo + 1 in
  let ok_lo := in_rounding_interval m e (inject_Z s_lo * unit)%Q in
  let ok_hi := in_rounding_interval m e (inject_Z s_hi * unit)%Q in
  let pick :=
    match Qcompare (x + x)%Q (inject_Z (s_lo + s_hi) * unit)%Q with
    | Lt => s_lo
    | Gt => s_hi
    | Eq => if Z.even s_lo then s_lo else s_hi
    end in
  if ok_lo && ok_hi then Some (normalise k (pick, n0))
  else if ok_lo then Some (normalise k (s_lo, n0))
  else if ok_hi then Some (normalise k (s_hi, n0))
  else None.

(** The shortest significand: [k] grows from 1; 17 digits always do. *)
Fixpoint shortest (fuel : nat) (m : positive) (e : Z) (n0 k : Z)
  : Z * Z * Z :=
  match fuel with
  | O => (Qfloor (toQ m e / Qpower 10%Q (n0 - k))%Q, n0, k)
  | S fuel' =>
      match candidate m e n0 k with
      | Some (s, n) => (s, n, k)
      | None => shortest fuel' m e n0 (k + 1)
      end
  end.

(** [Number::toString] (radix 10) of a positive finite double. *)
Definition finite_toString (m : positive) (e : Z) : string :=
  let x := toQ m e in
  let n0 :=
    decimal_exponent 8 ((Z.log2 (Z.pos m) + e) * 30103 / 100000 - 2) x in
  let '(s, n, k) := shortest 17 m e n0 1 in
  let ds := decimal s in
  if (k <=? n) && (n <=? 21) then ds +:+ zeros (n - k)
  else if (0 <? n) && (n <=? 21) then
    substring 0 (Z.to_nat n) ds +:+ "." +:+
    substring (Z.to_nat n) (Z.to_nat (k - n)) ds
  else if (-6 <? n) && (n <=? 0) then "0." +:+ zeros (- n) +:+ ds
  else
    let ex := (if n - 1 <? 0 then "-" else "+") +:+ decimal (Z.abs (n - 1)) in
    if k =? 1 then ds +:+ "e" +:+ ex
    else
      substring 0 1 ds +:+ "." +:+ substring 1 (Z.to_nat (k - 1)) ds +:+
      "e" +:+ ex.

(** [Number::toString]: what a template literal and [String] make of a
    number. *)
Definition Number_toString (x : number) : string :=
  match Prim2SF x with
  | S754_nan => "NaN"
  | S754_zero _ => "0"
  | S754_infinity false => "Infinity"
  | S754_infinity true => "-Infinity"
  | S754_finite false m e => finite_toString m e
  | S754_finite true m e => "-" +:+ finite_toString m e
  end.

(** The digits of [Number.prototype.toFixed]: [n] with at least
    [f + 1] digits, a point before the last [f]. *)
Definition fixed_digits (n : Z) (f : nat) : string :=
  let ds := decimal n in
  let ds := zeros (Z.of_nat (S f) - Z.of_nat (String.length ds)) +:+ ds in
  let k := String.length ds in
  match f with
  | O => ds
  | S _ => substring 0 (k - f) ds +:+ "." +:+ substring (k - f) f ds
  end.

(** [Number.prototype.toFixed(f)]: the integer [n] with [n / 10^f] closest
    to the number, the larger when there are two. *)
Definition toFixed (x : number) (f : nat) : string :=
  match Prim2SF x with
  | S754_nan => "NaN"
  | S754_infinity false => "Infinity"
  | S754_infinity true => "-Infinity"
  | S754_zero _ => fixed_digits 0 f
  | S754_finite sign m e =>
      let q := toQ m e in
      let body :=
        if Qle_bool (Qpower 10%Q 21) q then finite_toString m e
        else
          fixed_digits
            (Qfloor (q * Qpower 10%Q (Z.of_nat f) + (1 # 2))%Q) f in
      if sign then "-" +:+ body else body
  end.

(** The double of the integer [n], [0 < n < 2^53], with a sign: its
    mantissa of 53 bits and the exponent that goes with it. *)
Definition integer_double (sign : bool) (n : Z) : number :=
  let k := 52 - Z.log2 n in
  SF2Prim (S754_finite sign (Z.to_pos (n * 2 ^ k)) (- k)).

(** [Math.round]: the closest integer, the one nearer to +Infinity on a
    tie; [-0] for arguments in [[-0.5, -0]]. *)
Definition Math_round (x : number) : number :=
  match Prim2SF x with
  | S754_finite sign m e =>
      if 0 <=? e then x
      else
        let q := if sign then (- toQ m e)%Q else toQ m e in
        let n := Qfloor (q + (1 # 2))%Q in
        if n =? 0 then (if sign then PrimFloat.neg_zero else PrimFloat.zero)
        else integer_double sign (Z.abs n)
  | _ => x
  end.

(** [Number.isInteger]. *)
Definition Number_isInteger (x : number) : bool :=
  match Prim2SF x with
  | S754_zero _ => true
  | S754_finite _ m e => (0 <=? e) || (Z.pos m mod 2 ^ (- e) =? 0)
  | _ => false
  end.

End JsNumber.

Export JsNumber(number).

(* ================================================================== *)
(** ** Values *)

(** A value that is [null] or an [A]. *)
Inductive nullable (A : Type) : Type :=
| null
| nonnull (a : A).

Arguments null {A}.
Arguments nonnull {A} a.

(** Data values: the primitives and plain objects (a prototype of
    [Object.prototype], data properties only). *)
#[warnings="-register-all"]
Inductive JsVal : Type :=
| VUndefined
| VNull
| VBool (b : bool)
| VNum (x : number)
| VStr (s : string)
| VObj (props : gmap string JsVal).

(** A string or [null], of type [string | null], as a data value. *)
Definition of_nullable (g : nullable string) : JsVal :=
  match g with null => VNull | nonnull s => VStr s end.

(** What a rejected promise carries, as the [catch] clause tells them
    apart: an instance of [Error] with its [message], or any other value.
    The message of an [Error] is a string, as the type of [Error.message]
    declares it; the other values are the data values of [JsVal].  An
    [Error] whose message was overwritten with something else, and values
    that are not plain data (functions, symbols, objects with methods of
    their own or without a prototype), are outside this type: what is
    proved of a rejection is proved of the rejections written here. *)
Inductive Thrown : Type :=
| ThrownError (message : string)
| ThrownValue (v : JsVal).

(** How a computation completes: normally with a value, or abruptly. *)
Inductive Settled (A : Type) : Type :=
| Fulfilled (a : A)
| Rejected (reason : Thrown).

Arguments Fulfilled {A} a.
Arguments Rejected {A} reason.

(** [String(v)] on a data value.  On an object, [ToPrimitive] calls the
    [toString] it finds: [Object.prototype.toString], unless an own
    property of that name hides it.  The own properties of a [JsVal] hold
    data, which is not callable; [valueOf] then yields the object itself
    or is not callable either, and the conversion throws a [TypeError].
    (An own [toString] that is a function would be called instead; a
    [JsVal] has no such property.) *)
Definition JsString_of (v : JsVal) : Settled string :=
  match v with
  | VUndefined => Fulfilled "undefined"
  | VNull => Fulfilled "null"
  | VBool true => Fulfilled "true"
  | VBool false => Fulfilled "false"
  | VNum x => Fulfilled (JsNumber.Number_toString x)
  | VStr s => Fulfilled s
  | VObj props =>
      match props !! "toString" with
      | None => Fulfilled "[object Object]"
      | Some _ =>
          Rejected (ThrownError "Cannot convert object to primitive value")
      end
  end.

(** [typeof]-like classification used by zod in its issues. *)
Definition getParsedType (v : JsVal) : string :=
  match v with
  | VUndefined => "undefined"
  | VNull => "null"
  | VBool _ => "boolean"
  | VNum x => if PrimFloat.is_nan x then "nan" else "number"
  | VStr _ => "string"
  | VObj _ => "object"
  end.

(* ================================================================== *)
(** ** The zod combinators the schema is built from

    zod is a dependency of the repository; these definitions follow the
    behaviour of zod 3 for the combinators that [UpdateActivityInputSchema]
    uses.  A schema reads a value found at a path and yields the parsed
    value or the issues; an object schema reports the issues of all its
    fields, and a number schema those of all its checks. *)

Module z.

Inductive ZodIssue : Type :=
| invalid_type (path : list string) (expected received : string)
| too_small (path : list string) (minimum : number) (inclusive : bool).

Inductive ParseReturn (A : Type) : Type :=
| OK (value : A)
| INVALID (issues : list ZodIssue).

Arguments OK {A} value.
Arguments INVALID {A} issues.

Definition Schema (A : Type) : Type := list string -> JsVal -> ParseReturn A.

Definition map {A B} (f : A -> B) (r : ParseReturn A) : ParseReturn B :=
  match r with OK a => OK (f a) | INVALID i => INVALID i end.

(** Applies a parsed constructor to the next field, keeping every issue. *)
Definition ap {A B} (rf : ParseReturn (A -> B)) (ra : ParseReturn A)
  : ParseReturn B :=
  match rf, ra with
  | OK f, OK a => OK (f a)
  | OK _, INVALID j => INVALID j
  | INVALID i, OK _ => INVALID i
  | INVALID i, INVALID j => INVALID (i ++ j)
  end.

(** A refinement of [z.number()]: the issue it raises, if any. *)
Definition NumberCheck : Type := list string -> number -> list ZodIssue.

(** [.int()]: [Number.isInteger]. *)
Definition int : NumberCheck := fun path x =>
  if JsNumber.Number_isInteger x then []
  else [invalid_type path "integer" "float"].

(** [.positive()]: strictly greater than 0. *)
Definition positive : NumberCheck := fun path x =>
  if PrimFloat.ltb 0 x then [] else [too_small path 0%float false].

(** [z.number()] with its checks: a number that is not [NaN]. *)
Definition number (checks : list NumberCheck) : Schema JsNumber.number :=
  fun path v =>
    match v with
    | VNum x =>
        if PrimFloat.is_nan x then INVALID [invalid_type path "number" "nan"]
        else
          match flat_map (fun check => check path x) checks with
          | [] => OK x
          | issues => INVALID issues
          end
    | _ => INVALID [invalid_type path "number" (getParsedType v)]
    end.

(** [z.string()]. *)
Definition string : Schema String.string := fun path v =>
  match v with
  | VStr s => OK s
  | _ => INVALID [invalid_type path "string" (getParsedType v)]
  end.

(** [z.boolean()]. *)
Definition boolean : Schema bool := fun path v =>
  match v with
  | VBool b => OK b
  | _ => INVALID [invalid_type path "boolean" (getParsedType v)]
  end.

(** [.optional()]: [undefined] passes as it is. *)
Definition optional {A} (inner : Schema A) : Schema (option A) :=
  fun path v =>
    match v with
    | VUndefined => OK None
    | _ => map Some (inner path v)
    end.

(** [.nullable()]: [null] passes as it is. *)
Definition nullable {A} (inner : Schema A) : Schema (nullable A) :=
  fun path v =>
    match v with
    | VNull => OK null
    | _ => map nonnull (inner path v)
    end.

(** The value of key [k] that an object schema hands to a field's schema:
    [data[k]], which is [undefined] for a missing key. *)
Definition field {A} (props : gmap String.string JsVal)
  (path : list String.string) (k : String.string) (schema : Schema A)
  : ParseReturn A :=
  schema (path ++ [k]) (default VUndefined (props !! k)).

End z.

(* ================================================================== *)
(** ** The input schema *)

(** [UpdateActivityInput = z.infer<typeof UpdateActivityInputSchema>]. *)
Module UpdateActivityInput.

Record t : Type := mk {
  activityId : number;
  name : option string;
  type : option string;
  sportType : option string;
  description : option string;
  private : option bool;
  commute : option bool;
  gearId : option (nullable string)
}.

End UpdateActivityInput.

(** [UpdateActivityInputSchema]: a [z.object] of the eight fields.  Keys
    that the shape does not name are dropped. *)
Definition UpdateActivityInputSchema : z.Schema UpdateActivityInput.t :=
  fun path v =>
    match v with
    | VObj props =>
        z.ap (z.ap (z.ap (z.ap (z.ap (z.ap (z.ap (z.ap
          (z.OK UpdateActivityInput.mk)
          (z.field props path "activityId" (z.number [z.int; z.positive])))
          (z.field props path "name" (z.optional z.string)))
          (z.field props path "type" (z.optional z.string)))
          (z.field props path "sportType" (z.optional z.string)))
          (z.field props path "description" (z.optional z.string)))
          (z.field props path "private" (z.optional z.boolean)))
          (z.field props path "commute" (z.optional z.boolean)))
          (z.field props path "gearId" (z.optional (z.nullable z.string)))
    | _ => z.INVALID [z.invalid_type path "object" (getParsedType v)]
    end.

(** [schema.safeParse(data)]: never throws; [OK] is [{success: true,
    data}], [INVALID] is [{success: false, error}]. *)
Definition safeParse {A} (schema : z.Schema A) (data : JsVal)
  : z.ParseReturn A :=
  schema [] data.

(* ================================================================== *)
(** ** The activity returned by Strava *)

(** Modelled from the spec: the type [StravaDetailedActivity] is declared
    in [src/stravaClient.ts], which is not part of the sources at hand.
    Of the ActivitySummary of the spec ("identifier, name, type, sport
    type, local start timestamp, distance, elevation gain, description,
    privacy flag, commute flag, plus other fields irrelevant to this
    core") the record keeps the ten fields that the formatter reads.  The
    fields that the formatter tests for presence or truth are optional. *)
Module StravaDetailedActivity.

Record t : Type := mk {
  id : number;
  name : string;
  type : string;
  sport_type : string;
  start_date_local : string;
  distance : option number;
  total_elevation_gain : option number;
  description : option (nullable string);
  private : option bool;
  commute : option bool
}.

End StravaDetailedActivity.

(* ================================================================== *)
(** ** The formatter *)

(** Truthiness of the optional fields that the formatter tests. *)
Definition truthy_number (x : option number) : bool :=
  match x with Some x => JsNumber.truthy x | None => false end.

Definition truthy_string (s : option (nullable string)) : bool :=
  match s with Some (nonnull s) => JsString.truthy s | _ => false end.

Definition truthy_boolean (b : option bool) : bool :=
  match b with Some b => b | None => false end.

(** [formatActivityDetails].  [Date_toLocaleString s] stands for
    [new Date(s).toLocaleString()], which depends on the locale and the
    time zone of the host. *)
Definition formatActivityDetails (Date_toLocaleString : string -> string)
  (activity : StravaDetailedActivity.t) : string :=
  let date :=
    Date_toLocaleString (StravaDetailedActivity.start_date_local activity) in
  let distance :=
    match StravaDetailedActivity.distance activity with
    | Some d =>
        if JsNumber.truthy d
        then JsNumber.toFixed (d / 1000)%float 2 +:+ " km"
        else "N/A"
    | None => "N/A"
    end in
  let elevation :=
    match StravaDetailedActivity.total_elevation_gain activity with
    | Some g =>
        if JsNumber.truthy g
        then JsNumber.Number_toString (JsNumber.Math_round g) +:+ " m"
        else "N/A"
    | None => "N/A"
    end in
  let details :=
    "🏃 **" +:+ StravaDetailedActivity.name activity +:+ "** (ID: " +:+
    JsNumber.Number_toString (StravaDetailedActivity.id activity) +:+ ")" +:+
    JsString.nl in
  let details :=
    details +:+ "   - Type: " +:+ StravaDetailedActivity.type activity +:+
    " (" +:+ StravaDetailedActivity.sport_type activity +:+ ")" +:+
    JsString.nl in
  let details := details +:+ "   - Date: " +:+ date +:+ JsString.nl in
  let details :=
    match StravaDetailedActivity.distance activity with
    | Some _ => details +:+ "   - Distance: " +:+ distance +:+ JsString.nl
    | None => details
    end in
  let details :=
    match StravaDetailedActivity.total_elevation_gain activity with
    | Some _ =>
        details +:+ "   - Elevation Gain: " +:+ elevation +:+ JsString.nl
    | None => details
    end in
  let details :=
    match StravaDetailedActivity.description activity with
    | Some (nonnull d) =>
        if JsString.truthy d
        then details +:+ "   - Description: " +:+ d +:+ JsString.nl
        else details
    | _ => details
    end in
  let details :=
    details +:+ "   - Private: " +:+
    (if truthy_boolean (StravaDetailedActivity.private activity)
     then "Yes" else "No") +:+ JsString.nl in
  let details :=
    details +:+ "   - Commute: " +:+
    (if truthy_boolean (StravaDetailedActivity.commute activity)
     then "Yes" else "No") +:+ JsString.nl in
  details.

(* ================================================================== *)
(** ** Effects of the handler *)

(** What the handler does to the outside: a line on the console, or the
    call of [updateActivityInStrava] with its three arguments. *)
Inductive Event : Type :=
| console_error (line : string)
| strava_update (token : string) (activityId : number)
    (params : gmap string JsVal).

(** The collaborators of one invocation: the environment variable, the
    client function (what its promise settles to, by arguments) and the
    host's rendering of dates. *)
Record Host : Type := {
  STRAVA_ACCESS_TOKEN : option string;
  updateActivityInStrava :
    string -> number -> gmap string JsVal -> Settled StravaDetailedActivity.t;
  Date_toLocaleString : string -> string
}.

(** A computation appends to the trace and settles. *)
Definition Run (A : Type) : Type := list Event -> Settled A * list Event.

Definition ret {A} (a : A) : Run A := fun tr => (Fulfilled a, tr).

Definition throw {A} (e : Thrown) : Run A := fun tr => (Rejected e, tr).

Definition bind {A B} (m : Run A) (k : A -> Run B) : Run B := fun tr =>
  match m tr with
  | (Fulfilled a, tr') => k a tr'
  | (Rejected e, tr') => (Rejected e, tr')
  end.

(** [try { body } catch (error) { handler }]. *)
Definition try_catch {A} (body : Run A) (handler : Thrown -> Run A) : Run A :=
  fun tr =>
    match body tr with
    | (Fulfilled a, tr') => (Fulfilled a, tr')
    | (Rejected e, tr') => handler e tr'
    end.

Definition emit (ev : Event) : Run unit := fun tr => (Fulfilled tt, tr ++ [ev]).

(** Lifts a completion that has no effect of its own. *)
Definition settle {A} (s : Settled A) : Run A := fun tr => (s, tr).

(** [await updateActivityInStrava(token, activityId, params)]. *)
Definition await_updateActivityInStrava (h : Host) (token : string)
  (activityId : number) (params : gmap string JsVal)
  : Run StravaDetailedActivity.t :=
  bind (emit (strava_update token activityId params))
    (fun _ => settle (updateActivityInStrava h token activityId params)).

Declare Scope run_scope.
Delimit Scope run_scope with run.
Notation "x <- m ;; k" := (bind m (fun x => k))
  (at level 100, m at next level, k at level 200, right associativity)
  : run_scope.
Notation "m ;; k" := (bind m (fun _ => k))
  (at level 100, k at level 200, right associativity) : run_scope.

(* ================================================================== *)
(** ** The tool *)

Module TextContent.

Record t : Type := mk { type : string; text : string }.

End TextContent.

(** The handler's result; [isError] is [None] when the object has no such
    key. *)
Record ToolResult : Type := {
  content : list TextContent.t;
  isError : option bool
}.

(** The object [updateParams] after the seven conditional assignments. *)
Definition updateParams (input : UpdateActivityInput.t) : gmap string JsVal :=
  let updateParams : gmap string JsVal := ∅ in
  let updateParams :=
    match UpdateActivityInput.name input with
    | Some name => <["name" := VStr name]> updateParams
    | None => updateParams
    end in
  let updateParams :=
    match UpdateActivityInput.type input with
    | Some type => <["type" := VStr type]> updateParams
    | None => updateParams
    end in
  let updateParams :=
    match UpdateActivityInput.sportType input with
    | Some sportType => <["sport_type" := VStr sportType]> updateParams
    | None => updateParams
    end in
  let updateParams :=
    match UpdateActivityInput.description input with
    | Some description => <["description" := VStr description]> updateParams
    | None => updateParams
    end in
  let updateParams :=
    match UpdateActivityInput.private input with
    | Some isPrivate => <["private" := VBool isPrivate]> updateParams
    | None => updateParams
    end in
  let updateParams :=
    match UpdateActivityInput.commute input with
    | Some commute => <["commute" := VBool commute]> updateParams
    | None => updateParams
    end in
  let updateParams :=
    match UpdateActivityInput.gearId input with
    | Some gearId => <["gear_id" := of_nullable gearId]> updateParams
    | None => updateParams
    end in
  updateParams.

(** [error instanceof Error ? error.message : String(error)]. *)
Definition errorMessage_of (error : Thrown) : Settled string :=
  match error with
  | ThrownError message => Fulfilled message
  | ThrownValue v => JsString_of v
  end.

Local Open Scope run_scope.

(** [updateActivityTool.execute]. *)
Definition execute (h : Host) (input : UpdateActivityInput.t) : Run ToolResult :=
  let activityId := UpdateActivityInput.activityId input in
  match STRAVA_ACCESS_TOKEN h with
  | None | Some EmptyString =>
      emit (console_error "Missing STRAVA_ACCESS_TOKEN environment variable.") ;;
      ret {| content :=
               [TextContent.mk "text"
                  "Configuration error: Missing Strava access token."];
             isError := Some true |}
  | Some token =>
      try_catch
        (emit (console_error
                 ("Updating activity ID: " +:+
                  JsNumber.Number_toString activityId +:+ "...")) ;;
         updatedActivity <-
           await_updateActivityInStrava h token activityId (updateParams input) ;;
         let activityDetailsText :=
           formatActivityDetails (Date_toLocaleString h) updatedActivity in
         emit (console_error
                 ("Successfully updated activity: " +:+
                  StravaDetailedActivity.name updatedActivity)) ;;
         ret {| content :=
                  [TextContent.mk "text"
                     ("✅ Successfully updated activity ID " +:+
                      JsNumber.Number_toString activityId +:+ "." +:+
                      JsString.nl +:+ JsString.nl +:+ activityDetailsText)];
                isError := None |})
        (fun error =>
           errorMessage <- settle (errorMessage_of error) ;;
           emit (console_error
                   ("Error updating activity " +:+
                    JsNumber.Number_toString activityId +:+ ": " +:+
                    errorMessage)) ;;
           let userFriendlyMessage :=
             if JsString.includes errorMessage "Record Not Found"
                || JsString.includes errorMessage "404"
             then
               "Activity with ID " +:+ JsNumber.Number_toString activityId +:+
               " not found or you don't have permission to update it."
             else
               "An unexpected error occurred while updating activity ID " +:+
               JsNumber.Number_toString activityId +:+ ". Details: " +:+
               errorMessage in
           ret {| content :=
                    [TextContent.mk "text" ("❌ " +:+ userFriendlyMessage)];
                  isError := Some true |})
  end.

Local Close Scope run_scope.

(** The outbound calls recorded in a trace, in order. *)
Definition strava_calls (tr : list Event)
  : list (string * number * gmap string JsVal) :=
  flat_map
    (fun ev =>
       match ev with
       | strava_update token activityId params => [(token, activityId, params)]
       | console_error _ => []
       end) tr.

(** One invocation from an empty trace: how the promise settles, and the
    trace. *)
Definition invoke (h : Host) (input : UpdateActivityInput.t)
  : Settled ToolResult * list Event :=
  execute h input [].

(* ================================================================== *)
(** ** The words of the spec, as definitions *)

(** The external names of the optional fields. *)
Definition external_names : list string :=
  ["name"; "type"; "sport_type"; "description"; "private"; "commute";
   "gear_id"].

(** The credential is available: present and not empty. *)
Definition credential (h : Host) (token : string) : Prop :=
  STRAVA_ACCESS_TOKEN h = Some token /\ token <> EmptyString.

(** What the update function answers to the call that the handler makes. *)
Definition update_outcome (h : Host) (input : UpdateActivityInput.t)
  (token : string) : Settled StravaDetailedActivity.t :=
  updateActivityInStrava h token (UpdateActivityInput.activityId input)
    (updateParams input).

(** The identifier as the texts show it. *)
Definition shown_id (input : UpdateActivityInput.t) : string :=
  JsNumber.Number_toString (UpdateActivityInput.activityId input).

(** The error's message carries a not-found indicator. *)
Definition not_found_indicator (message : string) : bool :=
  JsString.includes message "Record Not Found"
  || JsString.includes message "404".

(** The lines of the summary, one definition per line. *)
Definition title_line (a : StravaDetailedActivity.t) : string :=
  "🏃 **" +:+ StravaDetailedActivity.name a +:+ "** (ID: " +:+
  JsNumber.Number_toString (StravaDetailedActivity.id a) +:+ ")" +:+
  JsString.nl.

Definition type_line (a : StravaDetailedActivity.t) : string :=
  "   - Type: " +:+ StravaDetailedActivity.type a +:+ " (" +:+
  StravaDetailedActivity.sport_type a +:+ ")" +:+ JsString.nl.

Definition date_line (L : string -> string) (a : StravaDetailedActivity.t)
  : string :=
  "   - Date: " +:+ L (StravaDetailedActivity.start_date_local a) +:+
  JsString.nl.

(** A decimal digit, and a string of decimal digits. *)
Definition is_digit (c : ascii) : bool :=
  let n := nat_of_ascii c in (48 <=? n)%nat && (n <=? 57)%nat.

Fixpoint all_digits (s : string) : bool :=
  match s with
  | EmptyString => true
  | String c rest => is_digit c && all_digits rest
  end.

(** Two decimal places: digits, a point, two digits. *)
Definition two_decimals (s : string) : Prop :=
  exists whole frac : string,
    s = whole +:+ "." +:+ frac /\
    whole <> EmptyString /\ all_digits whole = true /\
    String.length frac = 2%nat /\ all_digits frac = true.

(** Kilometres with two decimals, or N/A for a falsy value. *)
Definition shown_distance (d : number) : string :=
  if JsNumber.truthy d then JsNumber.toFixed (d / 1000)%float 2 +:+ " km"
  else "N/A".

(** Whole metres, or N/A for a falsy value. *)
Definition shown_elevation (g : number) : string :=
  if JsNumber.truthy g
  then JsNumber.Number_toString (JsNumber.Math_round g) +:+ " m"
  else "N/A".

Definition distance_line (a : StravaDetailedActivity.t) : string :=
  match StravaDetailedActivity.distance a with
  | Some d => "   - Distance: " +:+ shown_distance d +:+ JsString.nl
  | None => ""
  end.

Definition elevation_line (a : StravaDetailedActivity.t) : string :=
  match StravaDetailedActivity.total_elevation_gain a with
  | Some g => "   - Elevation Gain: " +:+ shown_elevation g +:+ JsString.nl
  | None => ""
  end.

(** The description that is shown: a string that is not empty. *)
Definition nonempty_description (a : StravaDetailedActivity.t)
  : option string :=
  match StravaDetailedActivity.description a with
  | Some (nonnull (String c rest)) => Some (String c rest)
  | _ => None
  end.

Definition description_line (a : StravaDetailedActivity.t) : string :=
  match nonempty_description a with
  | Some d => "   - Description: " +:+ d +:+ JsString.nl
  | None => ""
  end.

Definition yes_no (flag : option bool) : string :=
  match flag with Some true => "Yes" | Some false | None => "No" end.

Definition private_line (a : StravaDetailedActivity.t) : string :=
  "   - Private: " +:+ yes_no (StravaDetailedActivity.private a) +:+
  JsString.nl.

Definition commute_line (a : StravaDetailedActivity.t) : string :=
  "   - Commute: " +:+ yes_no (StravaDetailedActivity.commute a) +:+
  JsString.nl.

(** The text of a successful update. *)
Definition success_text (h : Host) (input : UpdateActivityInput.t)
  (a : StravaDetailedActivity.t) : string :=
  "✅ Successfully updated activity ID " +:+ shown_id input +:+ "." +:+
  JsString.nl +:+ JsString.nl +:+
  formatActivityDetails (Date_toLocaleString h) a.

Definition not_found_text (input : UpdateActivityInput.t) : string :=
  "❌ Activity with ID " +:+ shown_id input +:+
  " not found or you don't have permission to update it.".

Definition unexpected_text (input : UpdateActivityInput.t) (message : string)
  : string :=
  "❌ An unexpected error occurred while updating activity ID " +:+
  shown_id input +:+ ". Details: " +:+ message.

(** The invocation fails: there is no credential, or the update function
    rejects. *)
Definition failure_path (h : Host) (input : UpdateActivityInput.t) : Prop :=
  (STRAVA_ACCESS_TOKEN h = None \/ STRAVA_ACCESS_TOKEN h = Some "") \/
  exists token reason,
    credential h token /\ update_outcome h input token = Rejected reason.

(** A result with exactly one text block. *)
Definition one_text_block (r : ToolResult) (text : string) : Prop :=
  content r = [TextContent.mk "text" text].

(** The identifier is a positive integer: the value is an object whose
    [activityId] is a number, integral and above zero. *)
Definition positive_integer_id (v : JsVal) : Prop :=
  exists props x,
    v = VObj props /\ props !! "activityId" = Some (VNum x) /\
    JsNumber.Number_isInteger x = true /\ PrimFloat.ltb 0 x = true.

(** A structured failure: the failure value, with at least one issue. *)
Definition structured_failure {A} (r : z.ParseReturn A) : Prop :=
  exists issues, r = z.INVALID issues /\ issues <> [].

(** An optional field of a declared type, read from a key that may be
    missing: the parsed field. *)
Definition optional_string (o : option JsVal) : option (option string) :=
  match o with
  | None | Some VUndefined => Some None
  | Some (VStr s) => Some (Some s)
  | _ => None
  end.

Definition optional_boolean (o : option JsVal) : option (option bool) :=
  match o with
  | None | Some VUndefined => Some None
  | Some (VBool b) => Some (Some b)
  | _ => None
  end.

Definition optional_nullable_string (o : option JsVal)
  : option (option (nullable string)) :=
  match o with
  | None | Some VUndefined => Some None
  | Some VNull => Some (Some null)
  | Some (VStr s) => Some (Some (nonnull s))
  | _ => None
  end.

(* ================================================================== *)
(** ** Sample data: the mock of the repository's tests *)

Definition mockActivity : StravaDetailedActivity.t :=
  StravaDetailedActivity.mk 12345%float "Updated Test Activity" "Run"
    "running" "2024-01-01T06:00:00Z" (Some 5000%float) (Some 100%float)
    (Some (nonnull "Test activity description")) (Some false) (Some false).

(** A host whose update function settles as [outcome]. *)
Definition mockHost (token : option string)
  (outcome : Settled StravaDetailedActivity.t) : Host :=
  {| STRAVA_ACCESS_TOKEN := token;
     updateActivityInStrava := fun _ _ _ => outcome;
     Date_toLocaleString := fun _ => "1/1/2024, 6:00:00 AM" |}.

Definition onlyId (activityId : number) : UpdateActivityInput.t :=
  UpdateActivityInput.mk activityId None None None None None None None.

Definition nullGear : UpdateActivityInput.t :=
  UpdateActivityInput.mk 12345%float None None None None None None
    (Some null).

Definition fullUpdate : UpdateActivityInput.t :=
  UpdateActivityInput.mk 12345%float (Some "Updated Name") None None
    (Some "Updated description") (Some true) None (Some (nonnull "bike-123")).

(** A plain object whose own [toString] property hides the inherited
    method: [{ toString: null }]. *)
Definition unprintable : JsVal := VObj {[ "toString" := VNull ]}.

(* ================================================================== *)
(** ** Further words: the schema's keys and the values a caller supplies *)

(** The keys that the shape of [UpdateActivityInputSchema] names. *)
Definition shape_keys : list string :=
  ["activityId"; "name"; "type"; "sportType"; "description"; "private";
   "commute"; "gearId"].

(** The value a caller supplies under a key: there is none when the key
    is missing or holds [undefined]. *)
Definition supplied_value (o : option JsVal) : option JsVal :=
  match o with
  | None | Some VUndefined => None
  | Some v => Some v
  end.

(** The lines written to the console, in order. *)
Definition console_lines (tr : list Event) : list string :=
  flat_map
    (fun ev =>
       match ev with
       | console_error line => [line]
       | strava_update _ _ _ => []
       end) tr.

(** The range in which [toFixed] writes plain decimals: zero, or a finite
    number of magnitude below 10^21. *)
Definition plain_decimal_range (x : number) : bool :=
  match Prim2SF x with
  | S754_zero _ => true
  | S754_finite _ m e => negb (Qle_bool (Qpower 10%Q 21) (JsNumber.toQ m e))
  | S754_infinity _ | S754_nan => false
  end.


(* ================================================================== *)
(** ** Further words: what the renderings of numbers show *)

(** The real number that a number is, when it is finite. *)
Definition real_value (x : number) : option Q :=
  match Prim2SF x with
  | S754_zero _ => Some 0%Q
  | S754_finite sign m e =>
      Some (if sign then (- JsNumber.toQ m e)%Q else JsNumber.toQ m e)
  | S754_infinity _ | S754_nan => None
  end.

(** The integer that a number is, when it is one. *)
Definition integer_value (x : number) : option Z :=
  match Prim2SF x with
  | S754_zero _ => Some 0%Z
  | S754_finite sign m e =>
      let signed (z : Z) := if sign then (- z)%Z else z in
      if (0 <=? e)%Z then Some (signed (Z.pos m * 2 ^ e)%Z)
      else if (Z.pos m mod 2 ^ (- e) =? 0)%Z
           then Some (signed (Z.pos m / 2 ^ (- e))%Z)
           else None
  | S754_infinity _ | S754_nan => None
  end.

(** [n] is the integer nearest to [q], the upper one when two are as near:
    [q - 1/2 < n <= q + 1/2]. *)
Definition nearest_integer (q : Q) (n : Z) : Prop :=
  (inject_Z n <= q + (1 # 2))%Q /\ (q + (1 # 2) < inject_Z n + 1)%Q.

(** The number that a string of decimal digits writes. *)
Fixpoint digits_value_from (acc : Z) (s : string) : Z :=
  match s with
  | EmptyString => acc
  | String c rest =>
      digits_value_from (10 * acc + (Z.of_nat (nat_of_ascii c) - 48))%Z rest
  end.

Definition digits_value (s : string) : Z := digits_value_from 0 s.

(** [s] writes [n] hundredths with two decimal places: digits that write
    [n / 100], a point, and the two digits of [n mod 100]. *)
Definition shows_hundredths (s : string) (n : Z) : Prop :=
  exists whole frac : string,
    s = whole +:+ "." +:+ frac /\
    whole <> EmptyString /\ all_digits whole = true /\
    String.length frac = 2%nat /\ all_digits frac = true /\
    (digits_value whole * 100 + digits_value frac = n)%Z.

(** [s] writes the integer [n]: an optional minus sign and digits. *)
Definition shows_integer (s : string) (n : Z) : Prop :=
  exists sign digits : string,
    s = sign +:+ digits /\ (sign = "" \/ sign = "-") /\
    digits <> EmptyString /\ all_digits digits = true /\
    digits_value digits = Z.abs n.

(** The mock of the tests with a distance of 10^24 metres. *)
Definition hugeDistance : StravaDetailedActivity.t :=
  StravaDetailedActivity.mk 12345%float "Updated Test Activity" "Run"
    "running" "2024-01-01T06:00:00Z" (Some 1e24%float) (Some 100%float)
    (Some (nonnull "Test activity description")) (Some false) (Some false).


(* ================================================================== *)
(** * Properties *)

(** ** Strings *)

Section StringFacts.

Implicit Types s t n : string.

Lemma append_cons c s t : String c s +:+ t = String c (s +:+ t).
Proof. reflexivity. Qed.

Lemma append_empty_l s : "" +:+ s = s.
Proof. reflexivity. Qed.

Lemma append_assoc s t u : (s +:+ t) +:+ u = s +:+ t +:+ u.
Proof.
  induction s as [|c s IH]; [reflexivity|].
  rewrite !append_cons, IH. reflexivity.
Qed.

Lemma prefix_empty s : String.prefix "" s = true.
Proof. destruct s; reflexivity. Qed.

Lemma prefix_append n t : String.prefix n (n +:+ t) = true.
Proof.
  induction n as [|c n IH]; [apply prefix_empty|].
  rewrite append_cons. simpl. destruct (ascii_dec c c); [exact IH|congruence].
Qed.

Lemma startsWith_append n t : JsString.startsWith (n +:+ t) n = true.
Proof. apply prefix_append. Qed.

Lemma includes_prefix s n : String.prefix n s = true -> JsString.includes s n = true.
Proof.
  destruct s as [|c s]; simpl; intros H; [exact H|].
  rewrite H. reflexivity.
Qed.

Lemma includes_here n t : JsString.includes (n +:+ t) n = true.
Proof. apply includes_prefix, prefix_append. Qed.

Lemma includes_refl n : JsString.includes n n = true.
Proof.
  apply includes_prefix. induction n as [|c n IH]; [reflexivity|].
  simpl. destruct (ascii_dec c c); [exact IH|congruence].
Qed.

Lemma includes_skip s t n :
  JsString.includes t n = true -> JsString.includes (s +:+ t) n = true.
Proof.
  intros H. induction s as [|c s IH]; [exact H|].
  rewrite append_cons. simpl. rewrite IH. apply orb_true_r.
Qed.

End StringFacts.

(** Finds the needle behind a chain of concatenations. *)
Ltac find_needle :=
  repeat first
    [ apply includes_refl | apply includes_here | apply includes_skip ].

(** ** The four paths of the handler *)

Section Paths.

Variable h : Host.
Variable input : UpdateActivityInput.t.

Let activityId := UpdateActivityInput.activityId input.

Lemma invoke_no_credential :
  STRAVA_ACCESS_TOKEN h = None \/ STRAVA_ACCESS_TOKEN h = Some "" ->
  invoke h input =
    (Fulfilled
       {| content :=
            [TextContent.mk "text"
               "Configuration error: Missing Strava access token."];
          isError := Some true |},
     [console_error "Missing STRAVA_ACCESS_TOKEN environment variable."]).
Proof.
  intros [H|H]; unfold invoke, execute; rewrite H; reflexivity.
Qed.

Lemma invoke_updated token a :
  credential h token ->
  update_outcome h input token = Fulfilled a ->
  invoke h input =
    (Fulfilled
       {| content := [TextContent.mk "text" (success_text h input a)];
          isError := None |},
     [console_error ("Updating activity ID: " +:+ shown_id input +:+ "...");
      strava_update token activityId (updateParams input);
      console_error
        ("Successfully updated activity: " +:+ StravaDetailedActivity.name a)]).
Proof.
  intros [Htok Hne] Hout. unfold update_outcome in Hout.
  unfold invoke, execute. rewrite Htok.
  destruct token as [|c token]; [congruence|].
  unfold try_catch, bind, emit, await_updateActivityInStrava, settle, ret.
  cbn -[formatActivityDetails updateParams JsNumber.Number_toString].
  rewrite Hout. reflexivity.
Qed.

Lemma invoke_rejected reason message token :
  credential h token ->
  update_outcome h input token = Rejected reason ->
  errorMessage_of reason = Fulfilled message ->
  invoke h input =
    (Fulfilled
       {| content :=
            [TextContent.mk "text"
               (if not_found_indicator message then not_found_text input
                else unexpected_text input message)];
          isError := Some true |},
     [console_error ("Updating activity ID: " +:+ shown_id input +:+ "...");
      strava_update token activityId (updateParams input);
      console_error
        ("Error updating activity " +:+ shown_id input +:+ ": " +:+ message)]).
Proof.
  intros [Htok Hne] Hout Hmsg. unfold update_outcome in Hout.
  unfold invoke, execute. rewrite Htok.
  destruct token as [|c token]; [congruence|].
  unfold try_catch, bind, emit, await_updateActivityInStrava, settle, ret.
  cbn -[formatActivityDetails updateParams JsNumber.Number_toString
        errorMessage_of JsString.includes].
  rewrite Hout, Hmsg. unfold not_found_indicator.
  destruct (JsString.includes message "Record Not Found"
            || JsString.includes message "404"); reflexivity.
Qed.

Lemma invoke_escapes reason e token :
  credential h token ->
  update_outcome h input token = Rejected reason ->
  errorMessage_of reason = Rejected e ->
  invoke h input =
    (Rejected e,
     [console_error ("Updating activity ID: " +:+ shown_id input +:+ "...");
      strava_update token activityId (updateParams input)]).
Proof.
  intros [Htok Hne] Hout Hmsg. unfold update_outcome in Hout.
  unfold invoke, execute. rewrite Htok.
  destruct token as [|c token]; [congruence|].
  unfold try_catch, bind, emit, await_updateActivityInStrava, settle, ret.
  cbn -[formatActivityDetails updateParams JsNumber.Number_toString
        errorMessage_of JsString.includes].
  rewrite Hout, Hmsg. reflexivity.
Qed.

(** The credential is there or it is not. *)
Lemma credential_cases :
  (STRAVA_ACCESS_TOKEN h = None \/ STRAVA_ACCESS_TOKEN h = Some "") \/
  exists token, credential h token.
Proof.
  unfold credential. destruct (STRAVA_ACCESS_TOKEN h) as [[|c t]|]; auto.
  right. exists (String c t). split; [reflexivity|discriminate].
Qed.

End Paths.

(** ** The payload *)

Section Payload.

(** A conditional assignment [if (v !== undefined) m[key] = v], read at
    key [k]. *)
Lemma lookup_assign {A} (o : option A) (f : A -> JsVal) (key k : string)
  (m : gmap string JsVal) :
  match o with Some v => <[key := f v]> m | None => m end !! k =
  if decide (key = k)
  then match o with Some v => Some (f v) | None => m !! k end
  else m !! k.
Proof.
  destruct o as [v|]; [apply lookup_insert|].
  case_decide; reflexivity.
Qed.

Variable input : UpdateActivityInput.t.

(** The payload read at any key. *)
Lemma updateParams_lookup (k : string) :
  updateParams input !! k =
  if decide ("gear_id" = k) then of_nullable <$> UpdateActivityInput.gearId input
  else if decide ("commute" = k) then VBool <$> UpdateActivityInput.commute input
  else if decide ("private" = k) then VBool <$> UpdateActivityInput.private input
  else if decide ("description" = k)
       then VStr <$> UpdateActivityInput.description input
  else if decide ("sport_type" = k)
       then VStr <$> UpdateActivityInput.sportType input
  else if decide ("type" = k) then VStr <$> UpdateActivityInput.type input
  else if decide ("name" = k) then VStr <$> UpdateActivityInput.name input
  else None.
Proof.
  unfold updateParams. cbv zeta.
  rewrite !lookup_assign, lookup_empty.
  repeat case_decide; subst; try discriminate;
    repeat match goal with
           | |- context [match ?o with Some _ => _ | None => _ end] =>
               destruct o
           end; reflexivity.
Qed.

(** Every key of the payload is one of the seven external names. *)
Lemma updateParams_keys (k : string) :
  is_Some (updateParams input !! k) -> k ∈ external_names.
Proof.
  rewrite updateParams_lookup. unfold external_names.
  repeat (case_decide; [subst; intros _; repeat constructor|]).
  intros []; discriminate.
Qed.

End Payload.

(** ** Claims about the payload *)

(** C1: with a credential, the handler calls the update function once, and
    the payload of that call has a key exactly for the optional fields that
    the input supplies: read at an external name it yields the supplied
    value ([false], the empty string and [null] included) and nothing for a
    field left [undefined]; [sportType] is found under [sport_type] and
    [gearId] under [gear_id]; there is no other key. *)
Theorem C1_payload_key_iff_supplied (h : Host) (input : UpdateActivityInput.t)
  (token : string) :
  credential h token ->
  exists payload : gmap string JsVal,
    strava_calls (snd (invoke h input)) =
      [(token, UpdateActivityInput.activityId input, payload)] /\
    payload !! "name" = VStr <$> UpdateActivityInput.name input /\
    payload !! "type" = VStr <$> UpdateActivityInput.type input /\
    payload !! "sport_type" = VStr <$> UpdateActivityInput.sportType input /\
    payload !! "description" =
      VStr <$> UpdateActivityInput.description input /\
    payload !! "private" = VBool <$> UpdateActivityInput.private input /\
    payload !! "commute" = VBool <$> UpdateActivityInput.commute input /\
    payload !! "gear_id" = of_nullable <$> UpdateActivityInput.gearId input /\
    (is_Some (payload !! "sport_type") <->
       is_Some (UpdateActivityInput.sportType input)) /\
    (is_Some (payload !! "gear_id") <->
       is_Some (UpdateActivityInput.gearId input)) /\
    payload !! "sportType" = None /\
    payload !! "gearId" = None /\
    (forall k : string, is_Some (payload !! k) -> k ∈ external_names).
Proof.
  intros Hcred. exists (updateParams input). split.
  - destruct (update_outcome h input token) as [a|reason] eqn:Hout.
    + rewrite (invoke_updated h input token a Hcred Hout). reflexivity.
    + destruct (errorMessage_of reason) as [message|e] eqn:Hmsg.
      * rewrite (invoke_rejected h input reason message token Hcred Hout Hmsg).
        reflexivity.
      * rewrite (invoke_escapes h input reason e token Hcred Hout Hmsg).
        reflexivity.
  - repeat split; try apply updateParams_keys;
      try (rewrite updateParams_lookup;
           repeat (case_decide; try discriminate);
           first [reflexivity | congruence | apply fmap_is_Some]).
Qed.

Lemma C1_witness :
  exists payload : gmap string JsVal,
    strava_calls
      (snd (invoke (mockHost (Some "test-token") (Fulfilled mockActivity))
              fullUpdate)) =
      [("test-token", 12345%float, payload)] /\
    payload !! "name" = Some (VStr "Updated Name") /\
    payload !! "gear_id" = Some (VStr "bike-123") /\
    payload !! "commute" = None.
Proof.
  destruct (C1_payload_key_iff_supplied
              (mockHost (Some "test-token") (Fulfilled mockActivity))
              fullUpdate "test-token")
    as (payload & Hcall & Hname & _ & _ & _ & _ & Hcommute & Hgear & _).
  - split; [reflexivity|discriminate].
  - exists payload. repeat split; assumption.
Defined.

(** C2: for an identifier, [gearId: null] and nothing else, the payload of
    the call is the one-key object [{gear_id: null}]. *)
Theorem C2_null_gear_payload (h : Host) (activityId : number) (token : string) :
  credential h token ->
  strava_calls
    (snd (invoke h
            (UpdateActivityInput.mk activityId None None None None None None
               (Some null)))) =
    [(token, activityId, {[ "gear_id" := VNull ]})].
Proof.
  intros Hcred.
  set (input := UpdateActivityInput.mk activityId None None None None None None
                  (Some null)).
  destruct (update_outcome h input token) as [a|reason] eqn:Hout.
  - rewrite (invoke_updated h input token a Hcred Hout). reflexivity.
  - destruct (errorMessage_of reason) as [message|e] eqn:Hmsg.
    + rewrite (invoke_rejected h input reason message token Hcred Hout Hmsg).
      reflexivity.
    + rewrite (invoke_escapes h input reason e token Hcred Hout Hmsg).
      reflexivity.
Qed.

Lemma C2_witness :
  strava_calls
    (snd (invoke (mockHost (Some "test-token") (Fulfilled mockActivity))
            nullGear)) =
    [("test-token", 12345%float, {[ "gear_id" := VNull ]})].
Proof.
  apply (C2_null_gear_payload
           (mockHost (Some "test-token") (Fulfilled mockActivity))
           12345%float "test-token").
  split; [reflexivity|discriminate].
Defined.

(** ** Claims about the failure paths *)

(** C3: without a credential (the variable unset or empty) the result has
    the error flag set and a text with a configuration-error phrase, and
    the trace holds no call of the update function. *)
Theorem C3_missing_credential (h : Host) (input : UpdateActivityInput.t) :
  STRAVA_ACCESS_TOKEN h = None \/ STRAVA_ACCESS_TOKEN h = Some "" ->
  exists (r : ToolResult) (text : string),
    fst (invoke h input) = Fulfilled r /\
    one_text_block r text /\
    isError r = Some true /\
    JsString.includes text "Configuration error" = true /\
    strava_calls (snd (invoke h input)) = [].
Proof.
  intros Hnone. rewrite (invoke_no_credential h input Hnone).
  eexists. eexists. repeat split.
Qed.

Lemma C3_witness :
  exists (r : ToolResult) (text : string),
    fst (invoke (mockHost None (Fulfilled mockActivity)) fullUpdate) =
      Fulfilled r /\
    one_text_block r text /\
    isError r = Some true /\
    JsString.includes text "Configuration error" = true /\
    strava_calls
      (snd (invoke (mockHost None (Fulfilled mockActivity)) fullUpdate)) = [].
Proof.
  apply (C3_missing_credential (mockHost None (Fulfilled mockActivity))
           fullUpdate).
  left. reflexivity.
Defined.

(** C4 fails where C7 does, by the same defect: when the update function
    rejects with the plain object [{ toString: null }], no result is
    returned and no text is classified; the promise of the handler is
    rejected by the [TypeError] of [String(error)]. *)
Theorem C4_unprintable_rejection_unclassified :
  fst (invoke
         (mockHost (Some "test-token") (Rejected (ThrownValue unprintable)))
         fullUpdate) =
    Rejected (ThrownError "Cannot convert object to primitive value") /\
  ~ (exists r : ToolResult,
       fst (invoke
              (mockHost (Some "test-token")
                 (Rejected (ThrownValue unprintable)))
              fullUpdate) = Fulfilled r).
Proof.
  assert (fst (invoke
                 (mockHost (Some "test-token")
                    (Rejected (ThrownValue unprintable)))
                 fullUpdate) =
          Rejected (ThrownError "Cannot convert object to primitive value"))
    as Hrun by (vm_compute; reflexivity).
  split; [exact Hrun|].
  intros [r Hr]. rewrite Hrun in Hr. discriminate.
Qed.




(** ** The result *)

Lemma credential_unique (h : Host) (t1 t2 : string) :
  credential h t1 -> credential h t2 -> t1 = t2.
Proof. intros [H1 _] [H2 _]. congruence. Qed.

Lemma credential_present (h : Host) (token : string) :
  credential h token ->
  ~ (STRAVA_ACCESS_TOKEN h = None \/ STRAVA_ACCESS_TOKEN h = Some "").
Proof. intros [H Hne] [H'|H']; rewrite H in H'; congruence. Qed.

(** With rejections that have a message, the handler returns a result. *)
Lemma invoke_returns (h : Host) (input : UpdateActivityInput.t) :
  (forall token reason,
     credential h token ->
     update_outcome h input token = Rejected reason ->
     exists message, errorMessage_of reason = Fulfilled message) ->
  exists r : ToolResult, fst (invoke h input) = Fulfilled r.
Proof.
  intros Hprintable.
  destruct (credential_cases h) as [Hnone|[token Hcred]].
  - rewrite (invoke_no_credential h input Hnone). eexists. reflexivity.
  - destruct (update_outcome h input token) as [a|reason] eqn:Hout.
    + rewrite (invoke_updated h input token a Hcred Hout).
      eexists. reflexivity.
    + destruct (Hprintable token reason Hcred Hout) as [message Hmsg].
      rewrite (invoke_rejected h input reason message token Hcred Hout Hmsg).
      eexists. reflexivity.
Qed.

(** C5, as the spec has it, fails on the success path: the result of a
    successful update has no [isError] key, so the flag is not [false]. *)
Lemma C5_success_has_no_error_flag :
  exists r : ToolResult,
    update_outcome (mockHost (Some "test-token") (Fulfilled mockActivity))
      fullUpdate "test-token" = Fulfilled mockActivity /\
    fst (invoke (mockHost (Some "test-token") (Fulfilled mockActivity))
           fullUpdate) = Fulfilled r /\
    isError r = None /\
    isError r <> Some false.
Proof.
  eexists. split; [reflexivity|]. split; [vm_compute; reflexivity|].
  split; [reflexivity|discriminate].
Qed.

(** C5, amended: a returned result holds exactly one text block; on every
    failure path (no credential, or a rejected update) the error flag is
    set; on the success path the result has no error flag at all, and its
    text begins with the success glyph and the identifier and goes on with
    the formatted summary. *)
Theorem C5_result_shape (h : Host) (input : UpdateActivityInput.t)
  (r : ToolResult) :
  fst (invoke h input) = Fulfilled r ->
  exists text : string,
    one_text_block r text /\
    (failure_path h input -> isError r = Some true) /\
    (forall token a,
       credential h token ->
       update_outcome h input token = Fulfilled a ->
       isError r = None /\
       text =
         "✅ Successfully updated activity ID " +:+ shown_id input +:+ "." +:+
         JsString.nl +:+ JsString.nl +:+
         formatActivityDetails (Date_toLocaleString h) a /\
       JsString.startsWith text
         ("✅ Successfully updated activity ID " +:+ shown_id input) = true).
Proof.
  intros Hr.
  destruct (credential_cases h) as [Hnone|[token Hcred]].
  - rewrite (invoke_no_credential h input Hnone) in Hr.
    injection Hr as <-. eexists. split; [reflexivity|].
    split; [reflexivity|].
    intros token a Hcred _. destruct (credential_present h token Hcred Hnone).
  - destruct (update_outcome h input token) as [a|reason] eqn:Hout.
    + rewrite (invoke_updated h input token a Hcred Hout) in Hr.
      injection Hr as <-. eexists. split; [reflexivity|]. split.
      * intros [Hnone|(token' & reason & Hcred' & Hout')].
        -- destruct (credential_present h token Hcred Hnone).
        -- rewrite (credential_unique h token' token Hcred' Hcred) in Hout'.
           congruence.
      * intros token' a' Hcred' Hout'.
        rewrite (credential_unique h token' token Hcred' Hcred) in Hout'.
        assert (a' = a) as -> by congruence.
        split; [reflexivity|]. split; [reflexivity|].
        unfold success_text. cbn [TextContent.text].
        rewrite <- (append_assoc _ (shown_id input)).
        apply startsWith_append.
    + destruct (errorMessage_of reason) as [message|e] eqn:Hmsg.
      * rewrite (invoke_rejected h input reason message token Hcred Hout Hmsg)
          in Hr.
        injection Hr as <-. eexists. split; [reflexivity|].
        split; [reflexivity|].
        intros token' a' Hcred' Hout'.
        rewrite (credential_unique h token' token Hcred' Hcred) in Hout'.
        congruence.
      * rewrite (invoke_escapes h input reason e token Hcred Hout Hmsg) in Hr.
        discriminate.
Qed.

Lemma C5_witness :
  exists text : string,
    one_text_block
      {| content :=
           [TextContent.mk "text"
              (success_text (mockHost (Some "test-token") (Fulfilled mockActivity))
                 fullUpdate mockActivity)];
         isError := None |} text /\
    JsString.startsWith text "✅ Successfully updated activity ID 12345" = true.
Proof.
  destruct (C5_result_shape
              (mockHost (Some "test-token") (Fulfilled mockActivity))
              fullUpdate
              {| content :=
                   [TextContent.mk "text"
                      (success_text
                         (mockHost (Some "test-token") (Fulfilled mockActivity))
                         fullUpdate mockActivity)];
                 isError := None |})
    as (text & Hone & _ & Hok).
  - vm_compute. reflexivity.
  - exists text. split; [exact Hone|].
    destruct (Hok "test-token" mockActivity) as (_ & _ & Hstart).
    + split; [reflexivity|discriminate].
    + reflexivity.
    + exact Hstart.
Defined.

(** C7 fails on a rejection whose value has no string conversion: the
    update function rejects with the plain object [{ toString: null }],
    [String(error)] throws in the [catch] clause, and the promise of the
    handler is rejected with that [TypeError]. *)
Theorem C7_unprintable_rejection_escapes :
  invoke (mockHost (Some "test-token") (Rejected (ThrownValue unprintable)))
    (onlyId 12345%float) =
  (Rejected (ThrownError "Cannot convert object to primitive value"),
   [console_error "Updating activity ID: 12345...";
    strava_update "test-token" 12345%float ∅]).
Proof. vm_compute. reflexivity. Qed.

(** ** The formatter *)

Section Formatter.

Variable L : string -> string.
Variable a : StravaDetailedActivity.t.

Lemma yes_no_truthy (flag : option bool) :
  (if truthy_boolean flag then "Yes" else "No") = yes_no flag.
Proof. destruct flag as [[|]|]; reflexivity. Qed.

(** The text is the concatenation of its lines, in order. *)
Lemma formatActivityDetails_lines :
  formatActivityDetails L a =
    title_line a +:+ type_line a +:+ date_line L a +:+ distance_line a +:+
    elevation_line a +:+ description_line a +:+ private_line a +:+
    commute_line a.
Proof.
  unfold formatActivityDetails, title_line, type_line, date_line,
    distance_line, elevation_line, description_line, nonempty_description,
    private_line, commute_line, shown_distance, shown_elevation.
  cbv zeta. rewrite !yes_no_truthy.
  destruct (StravaDetailedActivity.distance a) as [dist|];
    destruct (StravaDetailedActivity.total_elevation_gain a) as [gain|];
    destruct (StravaDetailedActivity.description a) as [[|[|c desc]]|];
    cbv [JsString.truthy]; rewrite !append_assoc; reflexivity.
Qed.

End Formatter.

Lemma append_cancel_r (t : string) :
  forall s s' : string, s +:+ t = s' +:+ t -> s = s'.
Proof.
  assert (forall (c : ascii) (u : string), t <> String c u +:+ t) as Hlonger.
  { intros c u H. apply (f_equal String.length) in H.
    rewrite append_cons in H. cbn [String.length] in H.
    assert (forall a b : string,
              String.length (a +:+ b) =
              (String.length a + String.length b)%nat) as Hlen.
    { intros a b. induction a as [|c' a IH]; [reflexivity|].
      rewrite append_cons. cbn [String.length]. rewrite IH. reflexivity. }
    rewrite Hlen in H. lia. }
  induction s as [|c s IH]; intros [|c' s'] H.
  - reflexivity.
  - rewrite append_empty_l in H. destruct (Hlonger c' s' H).
  - rewrite append_empty_l in H. symmetry in H. destruct (Hlonger c s H).
  - rewrite !append_cons in H. injection H as -> H. f_equal. apply IH, H.
Qed.

(** C9, as the spec has it, fails: the date line is what the host makes of
    the timestamp at the time of the call ([toLocaleString] reads the
    locale and the time zone of the process), so two applications to the
    same summary under two renderings give two texts. *)
Lemma C9_rendering_changes_text :
  formatActivityDetails (fun _ => "1/1/2024, 6:00:00 AM") mockActivity <>
  formatActivityDetails (fun _ => "1/1/2024, 7:00:00 AM") mockActivity.
Proof. vm_compute. discriminate. Qed.

(** C9, amended: the formatter is deterministic in the summary and the
    host's rendering of its timestamp: two applications to the same
    summary yield the same text exactly when the host renders the
    timestamp of the summary the same way both times. *)
Theorem C9_formatter_deterministic (L1 L2 : string -> string)
  (a : StravaDetailedActivity.t) :
  formatActivityDetails L1 a = formatActivityDetails L2 a <->
  L1 (StravaDetailedActivity.start_date_local a) =
  L2 (StravaDetailedActivity.start_date_local a).
Proof.
  rewrite !formatActivityDetails_lines. unfold date_line. split.
  - intros H.
    apply (inj (String.app (title_line a))) in H.
    apply (inj (String.app (type_line a))) in H.
    rewrite !append_assoc in H.
    apply (inj (String.app "   - Date: ")) in H.
    apply append_cancel_r in H. exact H.
  - intros ->. reflexivity.
Qed.

(** C10: five lines are there for every summary: the title with name and
    identifier, the type with the sport type, the date, Private and
    Commute.  Only the three lines between the date and Private are
    conditional.  A flag that is absent or [false] reads "No". *)
Theorem C10_unconditional_lines (L : string -> string)
  (a : StravaDetailedActivity.t) :
  exists conditional : string,
    formatActivityDetails L a =
      ("🏃 **" +:+ StravaDetailedActivity.name a +:+ "** (ID: " +:+
       JsNumber.Number_toString (StravaDetailedActivity.id a) +:+ ")" +:+
       JsString.nl) +:+
      ("   - Type: " +:+ StravaDetailedActivity.type a +:+ " (" +:+
       StravaDetailedActivity.sport_type a +:+ ")" +:+ JsString.nl) +:+
      ("   - Date: " +:+ L (StravaDetailedActivity.start_date_local a) +:+
       JsString.nl) +:+
      conditional +:+
      ("   - Private: " +:+
       match StravaDetailedActivity.private a with
       | Some true => "Yes"
       | Some false | None => "No"
       end +:+ JsString.nl) +:+
      ("   - Commute: " +:+
       match StravaDetailedActivity.commute a with
       | Some true => "Yes"
       | Some false | None => "No"
       end +:+ JsString.nl) /\
    conditional = distance_line a +:+ elevation_line a +:+ description_line a.
Proof.
  exists (distance_line a +:+ elevation_line a +:+ description_line a).
  split; [|reflexivity].
  rewrite formatActivityDetails_lines.
  unfold title_line, type_line, date_line, private_line, commute_line, yes_no.
  rewrite !append_assoc. reflexivity.
Qed.

(** ** The schema *)

Section Schema.

Lemma isInteger_not_nan (x : number) :
  JsNumber.Number_isInteger x = true -> PrimFloat.is_nan x = false.
Proof.
  unfold JsNumber.Number_isInteger, Prim2SF.
  destruct (PrimFloat.is_nan x); [discriminate|reflexivity].
Qed.

Lemma number_accepts (path : list string) (x : number) :
  JsNumber.Number_isInteger x = true -> PrimFloat.ltb 0 x = true ->
  z.number [z.int; z.positive] path (VNum x) = z.OK x.
Proof.
  intros Hint Hpos. unfold z.number, z.int, z.positive.
  rewrite (isInteger_not_nan x Hint). cbn [flat_map].
  rewrite Hint, Hpos. reflexivity.
Qed.

Lemma number_rejects (path : list string) (v : JsVal) :
  (forall x, v = VNum x ->
     ~ (JsNumber.Number_isInteger x = true /\ PrimFloat.ltb 0 x = true)) ->
  structured_failure (z.number [z.int; z.positive] path v).
Proof.
  intros Hbad. unfold structured_failure.
  destruct v as [| |b|x|s|props];
    try (eexists; split; [reflexivity|discriminate]).
  unfold z.number, z.int, z.positive.
  destruct (PrimFloat.is_nan x);
    [eexists; split; [reflexivity|discriminate]|].
  cbn [flat_map].
  destruct (JsNumber.Number_isInteger x) eqn:Hint;
    destruct (PrimFloat.ltb 0 x) eqn:Hpos;
    try (eexists; split; [reflexivity|discriminate]).
  destruct (Hbad x eq_refl). split; assumption.
Qed.

(** One failed field fails the object, whatever follows. *)
Lemma ap_failure {A B} (rf : z.ParseReturn (A -> B)) (ra : z.ParseReturn A) :
  structured_failure rf -> structured_failure (z.ap rf ra).
Proof.
  intros (issues & -> & Hne). destruct ra as [a'|more]; cbn.
  - exists issues. split; [reflexivity|exact Hne].
  - exists (issues ++ more). split; [reflexivity|].
    destruct issues; [congruence|discriminate].
Qed.

Lemma ap_failure_arg {A B} (f : A -> B) (ra : z.ParseReturn A) :
  structured_failure ra -> structured_failure (z.ap (z.OK f) ra).
Proof.
  intros (issues & -> & Hne). exists issues. split; [reflexivity|exact Hne].
Qed.

Variable props : gmap string JsVal.
Variable path : list string.

Lemma field_optional_string (k : string) (o : option string) :
  optional_string (props !! k) = Some o ->
  z.field props path k (z.optional z.string) = z.OK o.
Proof.
  unfold z.field. destruct (props !! k) as [[| |b|x|s|ps]|]; cbn;
    intros H; inversion H; reflexivity.
Qed.

Lemma field_optional_boolean (k : string) (o : option bool) :
  optional_boolean (props !! k) = Some o ->
  z.field props path k (z.optional z.boolean) = z.OK o.
Proof.
  unfold z.field. destruct (props !! k) as [[| |b|x|s|ps]|]; cbn;
    intros H; inversion H; reflexivity.
Qed.

Lemma field_optional_nullable_string (k : string)
  (o : option (nullable string)) :
  optional_nullable_string (props !! k) = Some o ->
  z.field props path k (z.optional (z.nullable z.string)) = z.OK o.
Proof.
  unfold z.field. destruct (props !! k) as [[| |b|x|s|ps]|]; cbn;
    intros H; inversion H; reflexivity.
Qed.

End Schema.

(** C8: a value whose identifier is not a positive integer is refused by
    the schema with a structured failure (a value, not an exception, and
    before any handler runs: parsing has no effect); an object with a
    positive integer identifier and optional fields of the declared types
    ([gearId] a string, [null] or absent) parses to the input that holds
    those fields. *)
Theorem C8_identifier_validated :
  (forall v : JsVal,
     ~ positive_integer_id v ->
     structured_failure (safeParse UpdateActivityInputSchema v)) /\
  (forall (props : gmap string JsVal) (x : number)
          (name type sportType description : option string)
          (private commute : option bool) (gearId : option (nullable string)),
     props !! "activityId" = Some (VNum x) ->
     JsNumber.Number_isInteger x = true ->
     PrimFloat.ltb 0 x = true ->
     optional_string (props !! "name") = Some name ->
     optional_string (props !! "type") = Some type ->
     optional_string (props !! "sportType") = Some sportType ->
     optional_string (props !! "description") = Some description ->
     optional_boolean (props !! "private") = Some private ->
     optional_boolean (props !! "commute") = Some commute ->
     optional_nullable_string (props !! "gearId") = Some gearId ->
     safeParse UpdateActivityInputSchema (VObj props) =
       z.OK (UpdateActivityInput.mk x name type sportType description private
               commute gearId)).
Proof.
  split.
  - intros v Hbad. unfold safeParse, UpdateActivityInputSchema.
    destruct v as [| |b|x|s|props];
      try (eexists; split; [reflexivity|discriminate]).
    do 7 apply ap_failure. apply ap_failure_arg.
    unfold z.field. apply number_rejects.
    intros x Hx [Hint Hpos]. apply Hbad. exists props, x.
    destruct (props !! "activityId") as [v|] eqn:Hlook; cbn in Hx;
      [subst v|discriminate].
    repeat split; assumption.
  - intros props x name type sportType description private commute gearId
      Hid Hint Hpos Hname Htype Hsport Hdesc Hpriv Hcomm Hgear.
    unfold safeParse, UpdateActivityInputSchema.
    rewrite (field_optional_string props [] _ _ Hname),
      (field_optional_string props [] _ _ Htype),
      (field_optional_string props [] _ _ Hsport),
      (field_optional_string props [] _ _ Hdesc),
      (field_optional_boolean props [] _ _ Hpriv),
      (field_optional_boolean props [] _ _ Hcomm),
      (field_optional_nullable_string props [] _ _ Hgear).
    unfold z.field at 1. rewrite Hid. cbn [default from_option].
    rewrite (number_accepts _ x Hint Hpos). reflexivity.
Qed.

Lemma C8_witness :
  structured_failure
    (safeParse UpdateActivityInputSchema
       (VObj (<["activityId" := VNum (-12345)%float]>
                {[ "name" := VStr "Updated Name" ]}))) /\
  safeParse UpdateActivityInputSchema
    (VObj (<["activityId" := VNum 12345%float]> {[ "gearId" := VNull ]})) =
  z.OK nullGear.
Proof.
  split.
  - apply (proj1 C8_identifier_validated).
    intros (props & x & Hv & Hlook & _ & Hpos).
    injection Hv as <-. vm_compute in Hlook. injection Hlook as <-.
    vm_compute in Hpos. discriminate.
  - apply (proj2 C8_identifier_validated);
      solve [reflexivity | vm_compute; reflexivity].
Defined.

(** ** The renderings of numbers *)

Section Digits.

Local Open Scope Z_scope.

Lemma length_append (s t : string) :
  String.length (s +:+ t) = (String.length s + String.length t)%nat.
Proof.
  induction s as [|c s IH]; [reflexivity|].
  rewrite append_cons. cbn [String.length]. rewrite IH. reflexivity.
Qed.

Lemma all_digits_append (s t : string) :
  all_digits s = true -> all_digits t = true -> all_digits (s +:+ t) = true.
Proof.
  intros Hs Ht. induction s as [|c s IH]; [exact Ht|].
  rewrite append_cons. cbn [all_digits] in *.
  apply andb_prop in Hs as [Hc Hs]. rewrite Hc, (IH Hs). reflexivity.
Qed.

Lemma substring_length (s : string) :
  forall n m : nat,
    (n + m <= String.length s)%nat -> String.length (substring n m s) = m.
Proof.
  induction s as [|c s IH]; intros [|n] [|m] H; cbn in *;
    try reflexivity; try lia.
  - rewrite (IH 0%nat m); [reflexivity|cbn; lia].
  - apply IH. lia.
  - apply IH. lia.
Qed.

Lemma all_digits_substring (s : string) :
  forall n m : nat, all_digits s = true -> all_digits (substring n m s) = true.
Proof.
  induction s as [|c s IH]; intros [|n] [|m] H; cbn in *;
    try reflexivity; try exact H.
  - apply andb_prop in H as [Hc Hs]. rewrite Hc. cbn. apply IH, Hs.
  - apply andb_prop in H as [_ Hs]. apply IH, Hs.
  - apply andb_prop in H as [_ Hs]. apply IH, Hs.
Qed.

Lemma digit_char_is_digit (d : Z) :
  0 <= d < 10 -> is_digit (JsNumber.digit_char d) = true.
Proof.
  intros H.
  assert (d = 0 \/ d = 1 \/ d = 2 \/ d = 3 \/ d = 4 \/ d = 5 \/ d = 6 \/
          d = 7 \/ d = 8 \/ d = 9) as Hd by lia.
  repeat destruct Hd as [->|Hd]; try subst d; reflexivity.
Qed.

Lemma all_digits_digits_go (fuel : nat) :
  forall (n : Z) (acc : string),
    all_digits acc = true ->
    all_digits (JsNumber.digits_go fuel n acc) = true.
Proof.
  induction fuel as [|fuel IH]; intros n acc Hacc; cbn [JsNumber.digits_go];
    [exact Hacc|].
  assert (all_digits (String (JsNumber.digit_char (n mod 10)) acc) = true)
    as Hstep.
  { cbn [all_digits]. rewrite digit_char_is_digit, Hacc; [reflexivity|].
    apply Z.mod_pos_bound. lia. }
  destruct (n / 10 =? 0); [exact Hstep|apply IH, Hstep].
Qed.

Lemma all_digits_decimal (n : Z) : all_digits (JsNumber.decimal n) = true.
Proof. apply all_digits_digits_go. reflexivity. Qed.

Lemma digits_go_nonempty (fuel : nat) (n : Z) (acc : string) :
  (1 <= String.length (JsNumber.digits_go (S fuel) n acc))%nat.
Proof.
  revert n acc. induction fuel as [|fuel IH]; intros n acc.
  - cbn. destruct (n / 10 =? 0); cbn; lia.
  - cbn [JsNumber.digits_go]. destruct (n / 10 =? 0); [cbn; lia|].
    apply IH.
Qed.

Lemma zeros_length (z : Z) : String.length (JsNumber.zeros z) = Z.to_nat z.
Proof.
  unfold JsNumber.zeros. induction (Z.to_nat z) as [|k IH]; [reflexivity|].
  cbn. rewrite IH. reflexivity.
Qed.

Lemma all_digits_zeros (z : Z) : all_digits (JsNumber.zeros z) = true.
Proof.
  unfold JsNumber.zeros. induction (Z.to_nat z) as [|k IH]; [reflexivity|].
  cbn. exact IH.
Qed.

(** [toFixed]'s digits for two fraction digits: digits, a point, two
    digits. *)
Lemma fixed_digits_two_decimals (n : Z) :
  two_decimals (JsNumber.fixed_digits n 2).
Proof.
  unfold JsNumber.fixed_digits. cbv zeta.
  set (ds := JsNumber.zeros _ +:+ JsNumber.decimal n).
  assert (all_digits ds = true) as Hdigits.
  { apply all_digits_append;
      [apply all_digits_zeros|apply all_digits_decimal]. }
  assert (3 <= String.length ds)%nat as Hlen.
  { unfold ds. rewrite length_append, zeros_length. lia. }
  exists (substring 0 (String.length ds - 2) ds),
    (substring (String.length ds - 2) 2 ds).
  split; [reflexivity|]. split.
  - intros Hempty.
    assert (String.length (substring 0 (String.length ds - 2) ds) =
            (String.length ds - 2)%nat) as Hl
      by (apply substring_length; lia).
    rewrite Hempty in Hl. cbn in Hl. lia.
  - split; [apply all_digits_substring, Hdigits|].
    split; [apply substring_length; lia|].
    apply all_digits_substring, Hdigits.
Qed.

(** A finite number below 10^21 is shown by [toFixed(2)] with two decimal
    places, after its sign. *)
Lemma toFixed_two_decimals (x : number) (sign : bool) (m : positive) (e : Z) :
  Prim2SF x = S754_finite sign m e ->
  Qle_bool (Qpower 10%Q 21) (JsNumber.toQ m e) = false ->
  exists body : string,
    JsNumber.toFixed x 2 = (if sign then "-" else "") +:+ body /\
    two_decimals body.
Proof.
  intros Hx Hbelow. unfold JsNumber.toFixed. rewrite Hx. cbv zeta.
  rewrite Hbelow. eexists. split; [destruct sign; reflexivity|].
  apply fixed_digits_two_decimals.
Qed.

End Digits.

(** ** Runs *)

(** The renderings on values whose JavaScript output is well known. *)
Example toFixed_samples :
  map (fun x => JsNumber.toFixed x 2)
    [5; 0.004; 1.005; 8.345; 123.456; -0.001; -0; 1e21; infinity]%float =
  ["5.00"; "0.00"; "1.00"; "8.35"; "123.46"; "-0.00"; "0.00"; "1e+21";
   "Infinity"].
Proof. vm_compute. reflexivity. Qed.

Example Number_toString_samples :
  map JsNumber.Number_toString
    [12345; 0.1; 0.1 + 0.2; 1e21; 1e-7; 0.000001; 123456789012345680000;
     5e-324; 1.7976931348623157e308; -0; -1.5; nan]%float =
  ["12345"; "0.1"; "0.30000000000000004"; "1e+21"; "1e-7"; "0.000001";
   "123456789012345680000"; "5e-324"; "1.7976931348623157e+308"; "0";
   "-1.5"; "NaN"].
Proof. vm_compute. reflexivity. Qed.

Example Math_round_samples :
  map (fun x => JsNumber.Number_toString (JsNumber.Math_round x))
    [100; 0.3; -0.3; 0.5; -0.5; 2.5; -2.5; 0.49999999999999994; 99.5]%float =
  ["100"; "0"; "0"; "1"; "0"; "3"; "-2"; "0"; "100"].
Proof. vm_compute. reflexivity. Qed.

Example Number_isInteger_samples :
  map JsNumber.Number_isInteger
    [12345; -12345; 0; 1.5; 1e300; 5e-324; nan; infinity]%float =
  [true; true; true; false; true; false; false; false].
Proof. vm_compute. reflexivity. Qed.

(** The test "should update activity successfully". *)
Example run_update_successfully :
  fst (invoke (mockHost (Some "test-token") (Fulfilled mockActivity))
         fullUpdate) =
  Fulfilled
    {| content :=
         [TextContent.mk "text"
"✅ Successfully updated activity ID 12345.

🏃 **Updated Test Activity** (ID: 12345)
   - Type: Run (running)
   - Date: 1/1/2024, 6:00:00 AM
   - Distance: 5.00 km
   - Elevation Gain: 100 m
   - Description: Test activity description
   - Private: No
   - Commute: No
"];
       isError := None |}.
Proof. vm_compute. reflexivity. Qed.

(** The payload of that test: four keys, under their external names. *)
Example run_update_payload :
  updateParams fullUpdate =
  <["name" := VStr "Updated Name"]>
    (<["description" := VStr "Updated description"]>
       (<["private" := VBool true]> {[ "gear_id" := VStr "bike-123" ]})).
Proof. vm_compute. reflexivity. Qed.

(** The test "should handle API errors". *)
Example run_record_not_found :
  fst (invoke
         (mockHost (Some "test-token")
            (Rejected (ThrownError "Record Not Found"))) fullUpdate) =
  Fulfilled
    {| content :=
         [TextContent.mk "text"
            "❌ Activity with ID 12345 not found or you don't have permission to update it."];
       isError := Some true |}.
Proof. vm_compute. reflexivity. Qed.

(** A rejection with a value that is not an [Error]. *)
Example run_rejected_with_string :
  fst (invoke
         (mockHost (Some "test-token") (Rejected (ThrownValue (VStr "timeout"))))
         (onlyId 7%float)) =
  Fulfilled
    {| content :=
         [TextContent.mk "text"
            "❌ An unexpected error occurred while updating activity ID 7. Details: timeout"];
       isError := Some true |}.
Proof. vm_compute. reflexivity. Qed.

(** A summary with a zero distance and no elevation, description or
    flags. *)
Example format_sparse_summary :
  formatActivityDetails (fun _ => "1/1/2024, 6:00:00 AM")
    (StravaDetailedActivity.mk 1%float "Walk" "Walk" "Walk"
       "2024-01-01T06:00:00Z" (Some 0%float) None (Some null) None None) =
"🏃 **Walk** (ID: 1)
   - Type: Walk (Walk)
   - Date: 1/1/2024, 6:00:00 AM
   - Distance: N/A
   - Private: No
   - Commute: No
".
Proof. vm_compute. reflexivity. Qed.

(* ================================================================== *)
(** * Further properties of the handler, the formatter and the schema *)

(** ** More on strings *)

Lemma prefix_append_l (s : string) :
  forall n t : string,
    String.prefix n s = true -> String.prefix n (s +:+ t) = true.
Proof.
  induction s as [|c s IH]; intros [|d n] t H; cbn in H |- *;
    try discriminate; try apply prefix_empty.
  rewrite append_cons. cbn.
  destruct (ascii_dec d c); [apply IH, H|discriminate].
Qed.

Lemma includes_append_l (s t n : string) :
  JsString.includes s n = true -> JsString.includes (s +:+ t) n = true.
Proof.
  induction s as [|c s IH]; cbn [JsString.includes]; intros H.
  - destruct n as [|d n]; [|discriminate].
    apply includes_prefix, prefix_empty.
  - rewrite append_cons. cbn [JsString.includes].
    apply orb_prop in H as [H|H].
    + rewrite <- append_cons, (prefix_append_l _ _ t H). reflexivity.
    + rewrite (IH H). apply orb_true_r.
Qed.

(** ** The outbound call *)

(** X1: the update function is called at most once in an invocation, also
    when it rejects (there is no second attempt): not at all without a
    credential, and otherwise once, with the token of the environment, the
    identifier of the input and the payload. *)
Theorem update_called_once_or_never (h : Host) (input : UpdateActivityInput.t) :
  (length (strava_calls (snd (invoke h input))) <= 1)%nat /\
  strava_calls (snd (invoke h input)) =
    match STRAVA_ACCESS_TOKEN h with
    | None | Some EmptyString => []
    | Some token =>
        [(token, UpdateActivityInput.activityId input, updateParams input)]
    end.
Proof.
  assert (strava_calls (snd (invoke h input)) =
          match STRAVA_ACCESS_TOKEN h with
          | None | Some EmptyString => []
          | Some token =>
              [(token, UpdateActivityInput.activityId input,
                updateParams input)]
          end) as Hcalls.
  { destruct (credential_cases h) as [Hnone|[token Hcred]].
    - rewrite (invoke_no_credential h input Hnone).
      destruct Hnone as [-> | ->]; reflexivity.
    - assert (strava_calls (snd (invoke h input)) =
              [(token, UpdateActivityInput.activityId input,
                updateParams input)]) as ->.
      { destruct (update_outcome h input token) as [a|reason] eqn:Hout.
        - rewrite (invoke_updated h input token a Hcred Hout). reflexivity.
        - destruct (errorMessage_of reason) as [message|e] eqn:Hmsg.
          + rewrite (invoke_rejected h input reason message token Hcred Hout
                       Hmsg). reflexivity.
          + rewrite (invoke_escapes h input reason e token Hcred Hout Hmsg).
            reflexivity. }
      destruct Hcred as [-> Hne]. destruct token; [congruence|reflexivity]. }
  split; [|exact Hcalls].
  rewrite Hcalls. destruct (STRAVA_ACCESS_TOKEN h) as [[|c t]|]; cbn; lia.
Qed.

(** ** When the promise of the handler is rejected *)



(** ** The error flag, read by a client *)

(** X3: a returned result has no error flag exactly when the update went
    through; the flag is never [false]. *)
Theorem no_error_flag_iff_updated (h : Host) (input : UpdateActivityInput.t)
  (r : ToolResult) :
  fst (invoke h input) = Fulfilled r ->
  isError r <> Some false /\
  (isError r = None <->
   exists token a,
     credential h token /\ update_outcome h input token = Fulfilled a).
Proof.
  intros Hr.
  destruct (credential_cases h) as [Hnone|[token Hcred]].
  - rewrite (invoke_no_credential h input Hnone) in Hr. injection Hr as <-.
    split; [discriminate|]. split; [discriminate|].
    intros (token & a & Hcred & _).
    destruct (credential_present h token Hcred Hnone).
  - destruct (update_outcome h input token) as [a|reason] eqn:Hout.
    + rewrite (invoke_updated h input token a Hcred Hout) in Hr.
      injection Hr as <-. split; [discriminate|].
      split; [intros _; exists token, a; split; assumption|reflexivity].
    + destruct (errorMessage_of reason) as [message|e] eqn:Hmsg.
      * rewrite (invoke_rejected h input reason message token Hcred Hout Hmsg)
          in Hr.
        injection Hr as <-. split; [discriminate|]. split; [discriminate|].
        intros (token' & a & Hcred' & Hout').
        rewrite (credential_unique h token' token Hcred' Hcred) in Hout'.
        congruence.
      * rewrite (invoke_escapes h input reason e token Hcred Hout Hmsg) in Hr.
        discriminate.
Qed.

Lemma no_error_flag_iff_updated_witness :
  isError
    {| content :=
         [TextContent.mk "text"
            "Configuration error: Missing Strava access token."];
       isError := Some true |} <> Some false.
Proof.
  apply (no_error_flag_iff_updated (mockHost None (Fulfilled mockActivity))
           fullUpdate).
  reflexivity.
Defined.

(** ** The texts *)

(** X4: after a successful update the text names the identifier of the request
    and shows what the service returned: the name, the type, the sport
    type and the rendered date of the returned activity. *)
Theorem success_text_shows_returned_activity (h : Host)
  (input : UpdateActivityInput.t) (token : string)
  (a : StravaDetailedActivity.t) :
  credential h token ->
  update_outcome h input token = Fulfilled a ->
  exists (r : ToolResult) (text : string),
    fst (invoke h input) = Fulfilled r /\
    one_text_block r text /\
    JsString.includes text
      ("Successfully updated activity ID " +:+ shown_id input) = true /\
    JsString.includes text (StravaDetailedActivity.name a) = true /\
    JsString.includes text (StravaDetailedActivity.type a) = true /\
    JsString.includes text (StravaDetailedActivity.sport_type a) = true /\
    JsString.includes text
      (Date_toLocaleString h (StravaDetailedActivity.start_date_local a)) =
      true.
Proof.
  intros Hcred Hout. rewrite (invoke_updated h input token a Hcred Hout).
  eexists. eexists. split; [reflexivity|]. split; [reflexivity|].
  unfold success_text. rewrite formatActivityDetails_lines.
  unfold title_line, type_line, date_line.
  change "✅ Successfully updated activity ID "
    with ("✅ " +:+ "Successfully updated activity ID ").
  rewrite !append_assoc.
  split.
  { apply includes_skip. rewrite <- (append_assoc _ (shown_id input)).
    apply includes_here. }
  repeat split; find_needle.
Qed.

Lemma success_text_shows_returned_activity_witness :
  exists (r : ToolResult) (text : string),
    fst (invoke (mockHost (Some "test-token") (Fulfilled mockActivity))
           fullUpdate) = Fulfilled r /\
    one_text_block r text /\
    JsString.includes text "Updated Test Activity" = true.
Proof.
  destruct (success_text_shows_returned_activity
              (mockHost (Some "test-token") (Fulfilled mockActivity))
              fullUpdate "test-token" mockActivity)
    as (r & text & Hr & Hone & _ & Hname & _).
  - split; [reflexivity|discriminate].
  - reflexivity.
  - exists r, text. repeat split; assumption.
Defined.

(** X5: the requested values are not echoed: the result depends on the input
    through the identifier and through what the update function answers,
    and on nothing else. *)
Theorem result_ignores_requested_values (h : Host)
  (i1 i2 : UpdateActivityInput.t) :
  UpdateActivityInput.activityId i1 = UpdateActivityInput.activityId i2 ->
  (forall token : string,
     update_outcome h i1 token = update_outcome h i2 token) ->
  fst (invoke h i1) = fst (invoke h i2).
Proof.
  intros Hid Hsame.
  destruct (credential_cases h) as [Hnone|[token Hcred]].
  - rewrite (invoke_no_credential h i1 Hnone),
      (invoke_no_credential h i2 Hnone). reflexivity.
  - specialize (Hsame token).
    destruct (update_outcome h i1 token) as [a|reason] eqn:Hout1;
      symmetry in Hsame.
    + rewrite (invoke_updated h i1 token a Hcred Hout1),
        (invoke_updated h i2 token a Hcred Hsame).
      unfold success_text, shown_id. rewrite Hid. reflexivity.
    + destruct (errorMessage_of reason) as [message|e] eqn:Hmsg.
      * rewrite (invoke_rejected h i1 reason message token Hcred Hout1 Hmsg),
          (invoke_rejected h i2 reason message token Hcred Hsame Hmsg).
        unfold not_found_text, unexpected_text, shown_id. rewrite Hid.
        reflexivity.
      * rewrite (invoke_escapes h i1 reason e token Hcred Hout1 Hmsg),
          (invoke_escapes h i2 reason e token Hcred Hsame Hmsg).
        reflexivity.
Qed.

Lemma result_ignores_requested_values_witness :
  fst (invoke (mockHost (Some "test-token") (Fulfilled mockActivity))
         fullUpdate) =
  fst (invoke (mockHost (Some "test-token") (Fulfilled mockActivity))
         nullGear).
Proof.
  apply (result_ignores_requested_values
           (mockHost (Some "test-token") (Fulfilled mockActivity))
           fullUpdate nullGear).
  - reflexivity.
  - intros token. reflexivity.
Defined.

(** X6: a rejection is seen through its message only: an [Error] and a value
    that is not one, when [String] turns the value into the [Error]'s
    message, give the same result. *)
Theorem rejection_seen_through_message (h1 h2 : Host)
  (input : UpdateActivityInput.t) (token : string) (r1 r2 : Thrown) :
  credential h1 token -> credential h2 token ->
  update_outcome h1 input token = Rejected r1 ->
  update_outcome h2 input token = Rejected r2 ->
  errorMessage_of r1 = errorMessage_of r2 ->
  fst (invoke h1 input) = fst (invoke h2 input).
Proof.
  intros Hc1 Hc2 Hout1 Hout2 Hsame.
  destruct (errorMessage_of r1) as [message|e] eqn:Hmsg1; symmetry in Hsame.
  - rewrite (invoke_rejected h1 input r1 message token Hc1 Hout1 Hmsg1),
      (invoke_rejected h2 input r2 message token Hc2 Hout2 Hsame).
    reflexivity.
  - rewrite (invoke_escapes h1 input r1 e token Hc1 Hout1 Hmsg1),
      (invoke_escapes h2 input r2 e token Hc2 Hout2 Hsame).
    reflexivity.
Qed.

Lemma rejection_seen_through_message_witness :
  fst (invoke
         (mockHost (Some "test-token") (Rejected (ThrownError "404")))
         nullGear) =
  fst (invoke
         (mockHost (Some "test-token")
            (Rejected (ThrownValue (VNum 404%float))))
         nullGear).
Proof.
  apply (rejection_seen_through_message
           (mockHost (Some "test-token") (Rejected (ThrownError "404")))
           (mockHost (Some "test-token")
              (Rejected (ThrownValue (VNum 404%float))))
           nullGear "test-token" (ThrownError "404")
           (ThrownValue (VNum 404%float)));
    solve [ split; [reflexivity|discriminate]
          | reflexivity
          | vm_compute; reflexivity ].
Defined.

(** X7: the classification looks for its indicators anywhere in the message:
    a message that embeds another one classified as not found, between any
    two strings, is classified as not found too, and the result is the
    not-found sentence. *)
Theorem not_found_survives_wrapping (h : Host) (input : UpdateActivityInput.t)
  (token : string) (reason : Thrown) (before message after : string) :
  credential h token ->
  update_outcome h input token = Rejected reason ->
  errorMessage_of reason = Fulfilled (before +:+ message +:+ after) ->
  not_found_indicator message = true ->
  fst (invoke h input) =
    Fulfilled
      {| content := [TextContent.mk "text" (not_found_text input)];
         isError := Some true |}.
Proof.
  intros Hcred Hout Hmsg Hind.
  rewrite (invoke_rejected h input reason _ token Hcred Hout Hmsg).
  assert (not_found_indicator (before +:+ message +:+ after) = true) as ->;
    [|reflexivity].
  unfold not_found_indicator in *.
  apply orb_prop in Hind as [Hind|Hind].
  - rewrite (includes_skip before _ _ (includes_append_l _ after _ Hind)).
    reflexivity.
  - rewrite (includes_skip before _ _ (includes_append_l _ after _ Hind)).
    apply orb_true_r.
Qed.

Lemma not_found_survives_wrapping_witness :
  fst (invoke
         (mockHost (Some "test-token")
            (Rejected (ThrownError "Request timed out after 14040 ms")))
         nullGear) =
  Fulfilled
    {| content := [TextContent.mk "text" (not_found_text nullGear)];
       isError := Some true |}.
Proof.
  apply (not_found_survives_wrapping
           (mockHost (Some "test-token")
              (Rejected (ThrownError "Request timed out after 14040 ms")))
           nullGear "test-token"
           (ThrownError "Request timed out after 14040 ms")
           "Request timed out after 1" "404" "0 ms");
    solve [ split; [reflexivity|discriminate] | reflexivity ].
Defined.

(** X8: the failure glyph opens the text of a rejected update, and only that
    one: the text of the configuration error is the bare sentence. *)
Theorem failure_glyph_on_rejections_only (h : Host)
  (input : UpdateActivityInput.t) (r : ToolResult) (text : string) :
  fst (invoke h input) = Fulfilled r ->
  one_text_block r text ->
  ((STRAVA_ACCESS_TOKEN h = None \/ STRAVA_ACCESS_TOKEN h = Some "") ->
     text = "Configuration error: Missing Strava access token." /\
     JsString.startsWith text "❌" = false) /\
  (forall token reason,
     credential h token ->
     update_outcome h input token = Rejected reason ->
     JsString.startsWith text "❌ " = true) /\
  (forall token a,
     credential h token ->
     update_outcome h input token = Fulfilled a ->
     JsString.startsWith text "✅ " = true).
Proof.
  intros Hr Hone. unfold one_text_block in Hone.
  destruct (credential_cases h) as [Hnone|[token Hcred]].
  - rewrite (invoke_no_credential h input Hnone) in Hr. injection Hr as <-.
    injection Hone as <-.
    split; [intros _; split; reflexivity|].
    split; intros token ? Hcred;
      destruct (credential_present h token Hcred Hnone).
  - split; [intros Hnone; destruct (credential_present h token Hcred Hnone)|].
    destruct (update_outcome h input token) as [a|reason] eqn:Hout.
    + rewrite (invoke_updated h input token a Hcred Hout) in Hr.
      injection Hr as <-. injection Hone as <-.
      split; intros token' ? Hcred' Hout';
        rewrite (credential_unique h token' token Hcred' Hcred) in Hout';
        [congruence|].
      unfold success_text.
      change "✅ Successfully updated activity ID "
        with ("✅ " +:+ "Successfully updated activity ID ").
      rewrite append_assoc. apply startsWith_append.
    + destruct (errorMessage_of reason) as [message|e] eqn:Hmsg.
      * rewrite (invoke_rejected h input reason message token Hcred Hout Hmsg)
          in Hr.
        injection Hr as <-. injection Hone as <-.
        split; intros token' ? Hcred' Hout';
          rewrite (credential_unique h token' token Hcred' Hcred) in Hout';
          [|congruence].
        destruct (not_found_indicator message);
          [unfold not_found_text
          |unfold unexpected_text].
        -- change "❌ Activity with ID "
             with ("❌ " +:+ "Activity with ID ").
           rewrite append_assoc. apply startsWith_append.
        -- change "❌ An unexpected error occurred while updating activity ID "
             with ("❌ " +:+
                   "An unexpected error occurred while updating activity ID ").
           rewrite append_assoc. apply startsWith_append.
      * rewrite (invoke_escapes h input reason e token Hcred Hout Hmsg) in Hr.
        discriminate.
Qed.

Lemma failure_glyph_on_rejections_only_witness :
  JsString.startsWith "Configuration error: Missing Strava access token."
    "❌" = false.
Proof.
  apply (failure_glyph_on_rejections_only
           (mockHost None (Fulfilled mockActivity)) fullUpdate
           {| content :=
                [TextContent.mk "text"
                   "Configuration error: Missing Strava access token."];
              isError := Some true |}
           "Configuration error: Missing Strava access token.").
  - reflexivity.
  - reflexivity.
  - left. reflexivity.
Defined.

(** ** More on the schema *)

Section SchemaInversion.

Lemma ap_OK {A B} (rf : z.ParseReturn (A -> B)) (ra : z.ParseReturn A) (b : B) :
  z.ap rf ra = z.OK b -> exists f a, rf = z.OK f /\ ra = z.OK a /\ b = f a.
Proof.
  destruct rf as [f|i], ra as [a|j]; cbn; intros H; try discriminate.
  injection H as <-. exists f, a. repeat split.
Qed.

Lemma number_OK (path : list string) (v : JsVal) (x : number) :
  z.number [z.int; z.positive] path v = z.OK x ->
  v = VNum x /\ JsNumber.Number_isInteger x = true /\
  PrimFloat.ltb 0 x = true.
Proof.
  destruct v as [| |b|y|s|props]; cbn; try discriminate.
  unfold z.int, z.positive.
  destruct (PrimFloat.is_nan y); [discriminate|].
  destruct (JsNumber.Number_isInteger y) eqn:Hint; [|discriminate].
  destruct (PrimFloat.ltb 0 y) eqn:Hpos; [|discriminate].
  cbn. intros H. injection H as <-. repeat split; assumption.
Qed.

Variable props : gmap string JsVal.
Variable path : list string.

Lemma field_optional_string_OK (k : string) (o : option string) :
  z.field props path k (z.optional z.string) = z.OK o ->
  optional_string (props !! k) = Some o.
Proof.
  unfold z.field. destruct (props !! k) as [[| |b|x|s|ps]|]; cbn;
    intros H; inversion H; reflexivity.
Qed.

Lemma field_optional_boolean_OK (k : string) (o : option bool) :
  z.field props path k (z.optional z.boolean) = z.OK o ->
  optional_boolean (props !! k) = Some o.
Proof.
  unfold z.field. destruct (props !! k) as [[| |b|x|s|ps]|]; cbn;
    intros H; inversion H; reflexivity.
Qed.

Lemma field_optional_nullable_string_OK (k : string)
  (o : option (nullable string)) :
  z.field props path k (z.optional (z.nullable z.string)) = z.OK o ->
  optional_nullable_string (props !! k) = Some o.
Proof.
  unfold z.field. destruct (props !! k) as [[| |b|x|s|ps]|]; cbn;
    intros H; inversion H; reflexivity.
Qed.

End SchemaInversion.

(** What a successful parse says of the value and of the parsed input. *)
Lemma parse_fields (v : JsVal) (d : UpdateActivityInput.t) :
  safeParse UpdateActivityInputSchema v = z.OK d ->
  exists props : gmap string JsVal,
    v = VObj props /\
    props !! "activityId" = Some (VNum (UpdateActivityInput.activityId d)) /\
    JsNumber.Number_isInteger (UpdateActivityInput.activityId d) = true /\
    PrimFloat.ltb 0 (UpdateActivityInput.activityId d) = true /\
    optional_string (props !! "name") = Some (UpdateActivityInput.name d) /\
    optional_string (props !! "type") = Some (UpdateActivityInput.type d) /\
    optional_string (props !! "sportType") =
      Some (UpdateActivityInput.sportType d) /\
    optional_string (props !! "description") =
      Some (UpdateActivityInput.description d) /\
    optional_boolean (props !! "private") =
      Some (UpdateActivityInput.private d) /\
    optional_boolean (props !! "commute") =
      Some (UpdateActivityInput.commute d) /\
    optional_nullable_string (props !! "gearId") =
      Some (UpdateActivityInput.gearId d).
Proof.
  unfold safeParse, UpdateActivityInputSchema.
  destruct v as [| |b|x|s|props]; try discriminate.
  intros H. exists props. split; [reflexivity|].
  apply ap_OK in H as (f8 & gearId & H & Hgear & ->).
  apply ap_OK in H as (f7 & commute & H & Hcomm & ->).
  apply ap_OK in H as (f6 & private & H & Hpriv & ->).
  apply ap_OK in H as (f5 & description & H & Hdesc & ->).
  apply ap_OK in H as (f4 & sportType & H & Hsport & ->).
  apply ap_OK in H as (f3 & type & H & Htype & ->).
  apply ap_OK in H as (f2 & name & H & Hname & ->).
  apply ap_OK in H as (f1 & activityId & H & Hid & ->).
  injection H as <-. cbn.
  unfold z.field in Hid. apply number_OK in Hid as (Hv & Hint & Hpos).
  split.
  { destruct (props !! "activityId") as [v|]; cbn in Hv;
      [subst v; reflexivity|discriminate]. }
  split; [exact Hint|]. split; [exact Hpos|].
  split; [exact (field_optional_string_OK props [] _ _ Hname)|].
  split; [exact (field_optional_string_OK props [] _ _ Htype)|].
  split; [exact (field_optional_string_OK props [] _ _ Hsport)|].
  split; [exact (field_optional_string_OK props [] _ _ Hdesc)|].
  split; [exact (field_optional_boolean_OK props [] _ _ Hpriv)|].
  split; [exact (field_optional_boolean_OK props [] _ _ Hcomm)|].
  exact (field_optional_nullable_string_OK props [] _ _ Hgear).
Qed.

(** X9: the schema accepts exactly the objects whose [activityId] is a number,
    integral and above zero, and whose seven optional keys are missing,
    [undefined] or of the declared type ([gearId] may also be [null]); the
    parsed input holds that very number (no coercion from a string, no
    rounding, no default) and the typed readings of the optional keys. *)
Theorem parse_accepts_iff (v : JsVal) (d : UpdateActivityInput.t) :
  safeParse UpdateActivityInputSchema v = z.OK d <->
  exists props : gmap string JsVal,
    v = VObj props /\
    props !! "activityId" = Some (VNum (UpdateActivityInput.activityId d)) /\
    JsNumber.Number_isInteger (UpdateActivityInput.activityId d) = true /\
    PrimFloat.ltb 0 (UpdateActivityInput.activityId d) = true /\
    optional_string (props !! "name") = Some (UpdateActivityInput.name d) /\
    optional_string (props !! "type") = Some (UpdateActivityInput.type d) /\
    optional_string (props !! "sportType") =
      Some (UpdateActivityInput.sportType d) /\
    optional_string (props !! "description") =
      Some (UpdateActivityInput.description d) /\
    optional_boolean (props !! "private") =
      Some (UpdateActivityInput.private d) /\
    optional_boolean (props !! "commute") =
      Some (UpdateActivityInput.commute d) /\
    optional_nullable_string (props !! "gearId") =
      Some (UpdateActivityInput.gearId d).
Proof.
  split; [apply parse_fields|].
  intros (props & -> & Hid & Hint & Hpos & Hname & Htype & Hsport & Hdesc &
          Hpriv & Hcomm & Hgear).
  unfold safeParse, UpdateActivityInputSchema.
  rewrite (field_optional_string props [] _ _ Hname),
    (field_optional_string props [] _ _ Htype),
    (field_optional_string props [] _ _ Hsport),
    (field_optional_string props [] _ _ Hdesc),
    (field_optional_boolean props [] _ _ Hpriv),
    (field_optional_boolean props [] _ _ Hcomm),
    (field_optional_nullable_string props [] _ _ Hgear).
  unfold z.field at 1. rewrite Hid. cbn [default from_option].
  rewrite (number_accepts _ _ Hint Hpos). destruct d; reflexivity.
Qed.

(** X10: a key that the shape does not name changes nothing: the value parses
    as it does without the key (it is neither refused nor kept). *)
Theorem unknown_key_ignored (props : gmap string JsVal) (k : string)
  (v : JsVal) :
  k ∉ shape_keys ->
  safeParse UpdateActivityInputSchema (VObj (<[k := v]> props)) =
  safeParse UpdateActivityInputSchema (VObj props).
Proof.
  intros Hk. unfold shape_keys in Hk.
  unfold safeParse, UpdateActivityInputSchema, z.field.
  rewrite !lookup_insert_ne; [reflexivity|..];
    intros ->; apply Hk; repeat constructor.
Qed.

Lemma unknown_key_ignored_witness :
  safeParse UpdateActivityInputSchema
    (VObj (<["gear_id" := VNum 7%float]>
             (<["activityId" := VNum 12345%float]> {[ "gearId" := VNull ]}))) =
  safeParse UpdateActivityInputSchema
    (VObj (<["activityId" := VNum 12345%float]> {[ "gearId" := VNull ]})).
Proof.
  apply (unknown_key_ignored
           (<["activityId" := VNum 12345%float]> {[ "gearId" := VNull ]})
           "gear_id" (VNum 7%float)).
  unfold shape_keys. intros Hin.
  repeat (apply elem_of_cons in Hin as [Hin|Hin]; [discriminate|]).
  apply elem_of_nil in Hin. exact Hin.
Defined.

Section Forwarding.

Lemma forwarded_string (o : option JsVal) (f : option string) :
  optional_string o = Some f -> VStr <$> f = supplied_value o.
Proof.
  destruct o as [[| |b|x|s|ps]|]; cbn; intros H; inversion H; reflexivity.
Qed.

Lemma forwarded_boolean (o : option JsVal) (f : option bool) :
  optional_boolean o = Some f -> VBool <$> f = supplied_value o.
Proof.
  destruct o as [[| |b|x|s|ps]|]; cbn; intros H; inversion H; reflexivity.
Qed.

Lemma forwarded_nullable_string (o : option JsVal)
  (f : option (nullable string)) :
  optional_nullable_string o = Some f -> of_nullable <$> f = supplied_value o.
Proof.
  destruct o as [[| |b|x|s|ps]|]; cbn; intros H; inversion H; reflexivity.
Qed.

End Forwarding.

(** X11: validation followed by the building of the payload forwards what the
    caller wrote: for an object that the schema accepts, the payload holds
    under each external name the very value found under the caller's key
    ([sportType] for [sport_type], [gearId] for [gear_id]), and no key
    where the caller's key is missing or holds [undefined]. *)
Theorem payload_forwards_supplied_values (props : gmap string JsVal)
  (d : UpdateActivityInput.t) :
  safeParse UpdateActivityInputSchema (VObj props) = z.OK d ->
  updateParams d !! "name" = supplied_value (props !! "name") /\
  updateParams d !! "type" = supplied_value (props !! "type") /\
  updateParams d !! "sport_type" = supplied_value (props !! "sportType") /\
  updateParams d !! "description" = supplied_value (props !! "description") /\
  updateParams d !! "private" = supplied_value (props !! "private") /\
  updateParams d !! "commute" = supplied_value (props !! "commute") /\
  updateParams d !! "gear_id" = supplied_value (props !! "gearId").
Proof.
  intros H.
  destruct (parse_fields _ d H)
    as (props' & Hv & _ & _ & _ & Hname & Htype & Hsport & Hdesc & Hpriv &
        Hcomm & Hgear).
  injection Hv as <-.
  rewrite <- (forwarded_string _ _ Hname), <- (forwarded_string _ _ Htype),
    <- (forwarded_string _ _ Hsport), <- (forwarded_string _ _ Hdesc),
    <- (forwarded_boolean _ _ Hpriv), <- (forwarded_boolean _ _ Hcomm),
    <- (forwarded_nullable_string _ _ Hgear).
  repeat split;
    (rewrite updateParams_lookup;
     repeat (case_decide; try discriminate);
     first [reflexivity | congruence]).
Qed.

Lemma payload_forwards_supplied_values_witness :
  updateParams nullGear !! "gear_id" = Some VNull /\
  updateParams nullGear !! "name" = None.
Proof.
  destruct (payload_forwards_supplied_values
              (<["activityId" := VNum 12345%float]>
                 (<["name" := VUndefined]> {[ "gearId" := VNull ]}))
              nullGear)
    as (Hname & _ & _ & _ & _ & _ & Hgear).
  - vm_compute. reflexivity.
  - split; [exact Hgear|exact Hname].
Defined.

(** ** More on the formatter *)

(** In its plain range [toFixed(2)] writes a sign, digits, a point and two
    digits. *)
Lemma toFixed_plain_range (x : number) :
  plain_decimal_range x = true ->
  exists sign body : string,
    (sign = "" \/ sign = "-") /\ two_decimals body /\
    JsNumber.toFixed x 2 = sign +:+ body.
Proof.
  unfold plain_decimal_range, JsNumber.toFixed.
  destruct (Prim2SF x) as [s|s| |s m e]; try discriminate; intros H.
  - exists "", (JsNumber.fixed_digits 0 2).
    split; [left; reflexivity|].
    split; [apply fixed_digits_two_decimals|reflexivity].
  - cbv zeta. apply negb_true_iff in H. rewrite H.
    exists (if s then "-" else ""), (JsNumber.fixed_digits
      (Qfloor (JsNumber.toQ m e * Qpower 10%Q (Z.of_nat 2) + (1 # 2))%Q) 2).
    split; [destruct s; auto|].
    split; [apply fixed_digits_two_decimals|destruct s; reflexivity].
Qed.

(** X12: a distance that is present and truthy and whose thousandth is finite
    and below 10^21 is shown in kilometres with exactly two decimals:
    after the label come an optional minus sign, digits, a point, two
    digits and " km". *)
Theorem distance_shown_with_two_decimals (L : string -> string)
  (a : StravaDetailedActivity.t) (d : number) :
  StravaDetailedActivity.distance a = Some d ->
  JsNumber.truthy d = true ->
  plain_decimal_range (d / 1000)%float = true ->
  exists sign body : string,
    (sign = "" \/ sign = "-") /\ two_decimals body /\
    formatActivityDetails L a =
      title_line a +:+ type_line a +:+ date_line L a +:+
      ("   - Distance: " +:+ sign +:+ body +:+ " km" +:+ JsString.nl) +:+
      elevation_line a +:+ description_line a +:+ private_line a +:+
      commute_line a.
Proof.
  intros Hd Htruthy Hrange.
  destruct (toFixed_plain_range _ Hrange) as (sign & body & Hsign & Hbody & Hfix).
  exists sign, body. split; [exact Hsign|]. split; [exact Hbody|].
  rewrite formatActivityDetails_lines. unfold distance_line, shown_distance.
  rewrite Hd, Htruthy, Hfix, !append_assoc. reflexivity.
Qed.

Lemma distance_shown_with_two_decimals_witness :
  exists sign body : string,
    (sign = "" \/ sign = "-") /\ two_decimals body /\
    formatActivityDetails (fun _ => "1/1/2024, 6:00:00 AM") mockActivity =
      title_line mockActivity +:+ type_line mockActivity +:+
      date_line (fun _ => "1/1/2024, 6:00:00 AM") mockActivity +:+
      ("   - Distance: " +:+ sign +:+ body +:+ " km" +:+ JsString.nl) +:+
      elevation_line mockActivity +:+ description_line mockActivity +:+
      private_line mockActivity +:+ commute_line mockActivity.
Proof.
  apply (distance_shown_with_two_decimals
           (fun _ => "1/1/2024, 6:00:00 AM") mockActivity 5000%float);
    vm_compute; reflexivity.
Defined.

(** ** The credential *)

(** X13: the value of the credential reaches the update function and nothing
    else: two hosts that differ in the token only, and whose update
    functions answer alike, give the same result and write the same lines
    to the console. *)
Theorem credential_reaches_only_the_call (h1 h2 : Host)
  (input : UpdateActivityInput.t) (t1 t2 : string) :
  credential h1 t1 -> credential h2 t2 ->
  Date_toLocaleString h1 = Date_toLocaleString h2 ->
  update_outcome h1 input t1 = update_outcome h2 input t2 ->
  fst (invoke h1 input) = fst (invoke h2 input) /\
  console_lines (snd (invoke h1 input)) =
  console_lines (snd (invoke h2 input)).
Proof.
  intros Hc1 Hc2 HL Hsame.
  destruct (update_outcome h1 input t1) as [a|reason] eqn:Hout1;
    symmetry in Hsame.
  - rewrite (invoke_updated h1 input t1 a Hc1 Hout1),
      (invoke_updated h2 input t2 a Hc2 Hsame).
    unfold success_text. rewrite HL. split; reflexivity.
  - destruct (errorMessage_of reason) as [message|e] eqn:Hmsg.
    + rewrite (invoke_rejected h1 input reason message t1 Hc1 Hout1 Hmsg),
        (invoke_rejected h2 input reason message t2 Hc2 Hsame Hmsg).
      split; reflexivity.
    + rewrite (invoke_escapes h1 input reason e t1 Hc1 Hout1 Hmsg),
        (invoke_escapes h2 input reason e t2 Hc2 Hsame Hmsg).
      split; reflexivity.
Qed.

Lemma credential_reaches_only_the_call_witness :
  fst (invoke (mockHost (Some "test-token") (Fulfilled mockActivity))
         fullUpdate) =
  fst (invoke (mockHost (Some "other-token") (Fulfilled mockActivity))
         fullUpdate) /\
  console_lines
    (snd (invoke (mockHost (Some "test-token") (Fulfilled mockActivity))
            fullUpdate)) =
  console_lines
    (snd (invoke (mockHost (Some "other-token") (Fulfilled mockActivity))
            fullUpdate)).
Proof.
  apply (credential_reaches_only_the_call
           (mockHost (Some "test-token") (Fulfilled mockActivity))
           (mockHost (Some "other-token") (Fulfilled mockActivity))
           fullUpdate "test-token" "other-token");
    solve [ split; [reflexivity|discriminate] | reflexivity ].
Defined.

(* ================================================================== *)
(** * What the renderings show *)

Section DigitsValue.

Local Open Scope Z_scope.

Lemma digits_value_from_append (s t : string) :
  forall acc : Z,
    digits_value_from acc (s +:+ t) =
    digits_value_from (digits_value_from acc s) t.
Proof.
  induction s as [|c s IH]; intros acc; [reflexivity|].
  rewrite append_cons. cbn [digits_value_from]. apply IH.
Qed.

Lemma digits_value_from_shift (s : string) :
  forall acc : Z,
    digits_value_from acc s =
    acc * 10 ^ Z.of_nat (String.length s) + digits_value s.
Proof.
  unfold digits_value.
  induction s as [|c s IH]; intros acc.
  - cbn. lia.
  - cbn [digits_value_from String.length].
    rewrite (IH (10 * acc + _)), (IH (10 * 0 + _)).
    rewrite Nat2Z.inj_succ, Z.pow_succ_r by lia. ring.
Qed.

Lemma digits_value_append (s t : string) :
  digits_value (s +:+ t) =
  digits_value s * 10 ^ Z.of_nat (String.length t) + digits_value t.
Proof.
  unfold digits_value at 1. rewrite digits_value_from_append.
  apply digits_value_from_shift.
Qed.

Lemma digit_char_value (d : Z) :
  0 <= d < 10 -> Z.of_nat (nat_of_ascii (JsNumber.digit_char d)) - 48 = d.
Proof.
  intros H.
  assert (d = 0 \/ d = 1 \/ d = 2 \/ d = 3 \/ d = 4 \/ d = 5 \/ d = 6 \/
          d = 7 \/ d = 8 \/ d = 9) as Hd by lia.
  repeat destruct Hd as [->|Hd]; try subst d; reflexivity.
Qed.

(** The digits that [digits_go] puts before [acc] write [n]. *)
Lemma digits_value_digits_go (fuel : nat) :
  forall (n : Z) (acc : string),
    0 <= n < 2 ^ Z.of_nat fuel ->
    digits_value (JsNumber.digits_go fuel n acc) =
    n * 10 ^ Z.of_nat (String.length acc) + digits_value acc.
Proof.
  induction fuel as [|fuel IH]; intros n acc Hn.
  - change (2 ^ Z.of_nat 0) with 1 in Hn. assert (n = 0) as -> by lia.
    cbn [JsNumber.digits_go]. rewrite Z.mul_0_l. reflexivity.
  - cbn [JsNumber.digits_go].
    assert (digits_value (String (JsNumber.digit_char (n mod 10)) acc) =
            (n mod 10) * 10 ^ Z.of_nat (String.length acc) + digits_value acc)
      as Hcons.
    { unfold digits_value at 1. cbn [digits_value_from].
      rewrite digits_value_from_shift, digit_char_value;
        [ring|apply Z.mod_pos_bound; lia]. }
    destruct (n / 10 =? 0) eqn:Hsmall.
    + apply Z.eqb_eq in Hsmall.
      rewrite Hcons. f_equal. f_equal.
      apply Z.mod_small. apply Z.div_small_iff in Hsmall; lia.
    + rewrite IH.
      * rewrite Hcons. cbn [String.length].
        rewrite Nat2Z.inj_succ, Z.pow_succ_r by lia.
        rewrite (Z.div_mod n 10) at 3 by lia. ring.
      * rewrite Nat2Z.inj_succ, Z.pow_succ_r in Hn by lia.
        split; [apply Z.div_pos; lia|].
        apply Z.div_lt_upper_bound; lia.
Qed.

(** Reading the decimal digits of a number gives the number back. *)
Lemma digits_value_decimal (n : Z) :
  0 <= n -> digits_value (JsNumber.decimal n) = n.
Proof.
  intros Hn. unfold JsNumber.decimal.
  rewrite digits_value_digits_go; [cbn; lia|].
  split; [exact Hn|].
  rewrite Nat2Z.inj_succ, Z2Nat.id by apply Z.log2_nonneg.
  destruct (Z.eq_dec n 0) as [->|Hne]; [cbn; lia|].
  apply Z.log2_spec. lia.
Qed.

Lemma decimal_nonempty (n : Z) : JsNumber.decimal n <> EmptyString.
Proof.
  unfold JsNumber.decimal. intros H.
  pose proof (digits_go_nonempty (Z.to_nat (Z.log2 n)) n EmptyString) as Hl.
  rewrite H in Hl. cbn in Hl. lia.
Qed.

Lemma digits_value_zeros (z : Z) : digits_value (JsNumber.zeros z) = 0.
Proof.
  unfold JsNumber.zeros, digits_value.
  induction (Z.to_nat z) as [|k IH]; [reflexivity|]. cbn. exact IH.
Qed.

Lemma substring_split (s : string) :
  forall n m : nat,
    (n + m = String.length s)%nat ->
    s = substring 0 n s +:+ substring n m s.
Proof.
  induction s as [|c s IH]; intros [|n] [|m] H; cbn in *;
    try reflexivity; try lia.
  - rewrite append_empty_l. f_equal.
    rewrite (IH 0%nat m) at 1 by (cbn; lia).
    assert (substring 0 0 s = EmptyString) as -> by (destruct s; reflexivity).
    reflexivity.
  - rewrite append_cons. f_equal.
    assert (substring n 0 s = EmptyString) as Hend.
    { clear IH. revert n H. induction s as [|c' s IHs]; intros [|n] H;
        cbn in *; try reflexivity; try lia. apply IHs. lia. }
    rewrite (IH n 0%nat) at 1 by lia. rewrite Hend. reflexivity.
  - rewrite append_cons. f_equal. apply IH. lia.
Qed.

(** [toFixed]'s digits for two fraction digits write their number in
    hundredths. *)
Lemma fixed_digits_shows_hundredths (n : Z) :
  0 <= n -> shows_hundredths (JsNumber.fixed_digits n 2) n.
Proof.
  intros Hn. unfold JsNumber.fixed_digits. cbv zeta.
  set (ds := JsNumber.zeros _ +:+ JsNumber.decimal n).
  assert (all_digits ds = true) as Hdigits.
  { apply all_digits_append;
      [apply all_digits_zeros|apply all_digits_decimal]. }
  assert (3 <= String.length ds)%nat as Hlen.
  { unfold ds. rewrite length_append, zeros_length. lia. }
  assert (digits_value ds = n) as Hvalue.
  { unfold ds. rewrite digits_value_append, digits_value_zeros,
      digits_value_decimal by exact Hn. lia. }
  set (whole := substring 0 (String.length ds - 2) ds).
  set (frac := substring (String.length ds - 2) 2 ds).
  assert (String.length frac = 2%nat) as Hfrac
    by (apply substring_length; lia).
  assert (ds = whole +:+ frac) as Hsplit
    by (apply substring_split; lia).
  exists whole, frac. split; [reflexivity|]. split.
  - intros Hempty.
    assert (String.length whole = (String.length ds - 2)%nat) as Hl
      by (apply substring_length; lia).
    rewrite Hempty in Hl. cbn in Hl. lia.
  - split; [apply all_digits_substring, Hdigits|].
    split; [exact Hfrac|].
    split; [apply all_digits_substring, Hdigits|].
    rewrite <- Hvalue, Hsplit, digits_value_append, Hfrac. reflexivity.
Qed.

End DigitsValue.

Section Rounding.

Local Open Scope Z_scope.

Lemma toQ_positive (m : positive) (e : Z) : (0 < JsNumber.toQ m e)%Q.
Proof.
  unfold JsNumber.toQ. apply Qmult_lt_0_compat.
  - unfold Qlt. cbn. lia.
  - apply Qpower_0_lt. reflexivity.
Qed.

Lemma Qfloor_nearest (q : Q) : nearest_integer q (Qfloor (q + (1 # 2))).
Proof.
  split.
  - apply Qfloor_le.
  - rewrite <- (inject_Z_plus _ 1). apply Qlt_floor.
Qed.

Lemma nearest_integer_same (q : Q) (n : Z) :
  (q == inject_Z n)%Q -> nearest_integer q n.
Proof. intros H. unfold nearest_integer. rewrite H. split; lra. Qed.

Lemma nearest_integer_compat (q q' : Q) (n : Z) :
  (q == q')%Q -> nearest_integer q n -> nearest_integer q' n.
Proof. intros H [H1 H2]. unfold nearest_integer. rewrite <- H. split; assumption. Qed.

(** In its plain range [toFixed(2)] writes, after the sign, the nearest
    number of hundredths with two decimal places. *)
Lemma toFixed_shows_hundredths (x : number) (q : Q) :
  plain_decimal_range x = true ->
  real_value x = Some q ->
  exists (sign body : string) (n : Z),
    (sign = "" \/ sign = "-") /\
    nearest_integer (Qabs q * 100) n /\
    shows_hundredths body n /\
    JsNumber.toFixed x 2 = sign +:+ body.
Proof.
  unfold plain_decimal_range, real_value, JsNumber.toFixed.
  destruct (Prim2SF x) as [s|s| |s m e]; try discriminate; intros Hrange Hq;
    injection Hq as <-.
  - exists "", (JsNumber.fixed_digits 0 2), 0.
    split; [left; reflexivity|].
    split; [apply nearest_integer_same; reflexivity|].
    split; [apply fixed_digits_shows_hundredths; lia|reflexivity].
  - cbv zeta. apply negb_true_iff in Hrange. rewrite Hrange.
    pose proof (toQ_positive m e) as Hpos.
    set (n := Qfloor (JsNumber.toQ m e * Qpower 10%Q (Z.of_nat 2) + (1 # 2))%Q).
    exists (if s then "-" else ""), (JsNumber.fixed_digits n 2), n.
    split; [destruct s; auto|].
    split.
    + apply (nearest_integer_compat
               (JsNumber.toQ m e * Qpower 10%Q (Z.of_nat 2))%Q);
        [|apply Qfloor_nearest].
      assert (Qabs (if s then - JsNumber.toQ m e else JsNumber.toQ m e)
              == JsNumber.toQ m e)%Q as ->.
      { destruct s; [rewrite Qabs_opp|]; apply Qabs_pos; lra. }
      reflexivity.
    + split; [|destruct s; reflexivity].
      apply fixed_digits_shows_hundredths.
      change 0 with (Qfloor 0). apply Qfloor_resp_le.
      assert (0 <= JsNumber.toQ m e * Qpower 10%Q (Z.of_nat 2))%Q;
        [|lra].
      apply Qmult_le_0_compat; [lra|]. apply Qpower_0_le. discriminate.
Qed.

End Rounding.

Section MathRound.

Local Open Scope Z_scope.

Lemma digits2_pos_log2 (p : positive) :
  Z.pos (digits2_pos p) = Z.log2 (Z.pos p) + 1.
Proof.
  assert (digits2_pos p = Pos.size p) as ->
    by (induction p as [p IH|p IH|]; cbn; congruence).
  destruct p; cbn; lia.
Qed.

(** The mantissa of a double has at most 53 bits. *)
Lemma mantissa_bound (x : number) (sign : bool) (m : positive) (e : Z) :
  Prim2SF x = S754_finite sign m e -> Z.pos m < 2 ^ 53.
Proof.
  intros Hx. pose proof (Prim2SF_valid x) as Hvalid. rewrite Hx in Hvalid.
  unfold SpecFloat.valid_binary, bounded, canonical_mantissa, fexp in Hvalid.
  apply andb_prop in Hvalid as [Hcanon _]. apply Z.eqb_eq in Hcanon.
  rewrite digits2_pos_log2 in Hcanon.
  apply Z.log2_lt_pow2; [lia|].
  change prec with 53 in Hcanon. lia.
Qed.

(** The double of an integer below 2^53 is that integer. *)
Lemma Prim2SF_integer_double (sign : bool) (n : Z) :
  0 < n < 2 ^ 53 ->
  Prim2SF (JsNumber.integer_double sign n) =
  S754_finite sign (Z.to_pos (n * 2 ^ (52 - Z.log2 n))) (- (52 - Z.log2 n)).
Proof.
  intros Hn. unfold JsNumber.integer_double. cbv zeta.
  apply Prim2SF_SF2Prim.
  assert (Z.log2 n < 53) as Hlog by (apply Z.log2_lt_pow2; lia).
  pose proof (Z.log2_nonneg n) as Hlog0.
  set (k := 52 - Z.log2 n) in *.
  assert (0 < 2 ^ k) as Hpow by (apply Z.pow_pos_nonneg; lia).
  unfold SpecFloat.valid_binary, bounded, canonical_mantissa, fexp.
  rewrite digits2_pos_log2, Z2Pos.id by nia.
  rewrite Z.log2_mul_pow2 by lia.
  change prec with 53. change (SpecFloat.emin 53 emax) with (-1074).
  change emax with 1024.
  apply andb_true_intro. split; [apply Z.eqb_eq|apply Z.leb_le]; lia.
Qed.

Lemma integer_value_integer_double (sign : bool) (n : Z) :
  0 < n < 2 ^ 53 ->
  integer_value (JsNumber.integer_double sign n) =
  Some (if sign then - n else n).
Proof.
  intros Hn. unfold integer_value.
  rewrite (Prim2SF_integer_double sign n Hn). cbv zeta.
  assert (Z.log2 n < 53) as Hlog by (apply Z.log2_lt_pow2; lia).
  set (k := 52 - Z.log2 n) in *.
  assert (0 < 2 ^ k) as Hpow by (apply Z.pow_pos_nonneg; lia).
  rewrite Z2Pos.id by nia. rewrite Z.opp_involutive.
  destruct (0 <=? - k) eqn:Hk.
  - apply Z.leb_le in Hk. assert (k = 0) as -> by lia.
    cbn [Z.opp Z.pow Z.pow_pos Pos.iter]. f_equal.
    destruct sign; lia.
  - rewrite Z.mod_mul by lia. cbn [Z.eqb]. rewrite Z.div_mul by lia.
    reflexivity.
Qed.

Lemma toQ_integer (m : positive) (e : Z) :
  0 <= e -> (JsNumber.toQ m e == inject_Z (Z.pos m * 2 ^ e))%Q.
Proof.
  intros He. unfold JsNumber.toQ.
  rewrite inject_Z_mult, (Zpower_Qpower 2 e He). reflexivity.
Qed.

Lemma toQ_below_half (m : positive) (e : Z) :
  e < 0 -> Z.pos m < 2 ^ 53 ->
  (JsNumber.toQ m e < inject_Z (2 ^ 52))%Q.
Proof.
  intros He Hm. unfold JsNumber.toQ.
  assert (Qpower 2 e <= 1 # 2)%Q as Hpow.
  { change (1 # 2)%Q with (Qpower 2 (-1)).
    apply Qpower_le_compat_l; [lia|]. unfold Qle. cbn. lia. }
  assert (0 < Qpower 2 e)%Q as Hpos by (apply Qpower_0_lt; reflexivity).
  assert (inject_Z (Z.pos m) <= inject_Z (2 ^ 53 - 1))%Q as Hle
    by (rewrite <- Zle_Qle; lia).
  assert (0 < inject_Z (Z.pos m))%Q as Hmpos
    by (unfold Qlt; cbn; lia).
  change (inject_Z (2 ^ 52)) with 4503599627370496%Q.
  change (inject_Z (2 ^ 53 - 1)) with 9007199254740991%Q in Hle.
  nra.
Qed.

(** [Math.round] of a finite number is an integer, the nearest one. *)
Lemma Math_round_nearest (x : number) (q : Q) :
  real_value x = Some q ->
  exists n : Z,
    nearest_integer q n /\ integer_value (JsNumber.Math_round x) = Some n.
Proof.
  unfold real_value, JsNumber.Math_round.
  destruct (Prim2SF x) as [s|s| |s m e] eqn:Hx; try discriminate;
    intros Hq; injection Hq as <-.
  - exists 0. split; [apply nearest_integer_same; reflexivity|].
    unfold integer_value. rewrite Hx. reflexivity.
  - destruct (0 <=? e) eqn:He.
    + apply Z.leb_le in He.
      exists (if s then - (Z.pos m * 2 ^ e) else Z.pos m * 2 ^ e). split.
      * apply nearest_integer_same.
        destruct s; [rewrite inject_Z_opp|]; rewrite (toQ_integer m e He);
          reflexivity.
      * unfold integer_value. rewrite Hx.
        apply Z.leb_le in He. rewrite He. reflexivity.
    + apply Z.leb_gt in He. cbv zeta.
      pose proof (mantissa_bound x s m e Hx) as Hm.
      pose proof (toQ_below_half m e He Hm) as Hhalf.
      pose proof (toQ_positive m e) as Hpos.
      set (q := if s then (- JsNumber.toQ m e)%Q else JsNumber.toQ m e) in *.
      set (n := Qfloor (q + (1 # 2))%Q).
      pose proof (Qfloor_nearest q) as Hnear. fold n in Hnear.
      exists n. split; [exact Hnear|].
      destruct Hnear as [Hlo Hhi].
      change (inject_Z (2 ^ 52)) with 4503599627370496%Q in Hhalf.
      assert (inject_Z n < inject_Z 4503599627370497)%Q as Hup
        by (change (inject_Z 4503599627370497) with 4503599627370497%Q;
            unfold q in Hlo; destruct s; lra).
      assert (inject_Z (-4503599627370497) < inject_Z n)%Q as Hdown
        by (change (inject_Z (-4503599627370497))
              with (-4503599627370497)%Q;
            unfold q in Hhi; destruct s; lra).
      rewrite <- Zlt_Qlt in Hup, Hdown.
      destruct (n =? 0) eqn:Hzero.
      * apply Z.eqb_eq in Hzero. rewrite Hzero.
        destruct s; reflexivity.
      * apply Z.eqb_neq in Hzero.
        rewrite integer_value_integer_double by lia. f_equal.
        destruct s.
        -- assert (inject_Z n < inject_Z 1)%Q as Hneg
             by (change (inject_Z 1) with 1%Q; unfold q in Hlo; lra).
           rewrite <- Zlt_Qlt in Hneg. lia.
        -- assert (inject_Z (-1) < inject_Z n)%Q as Hnonneg
             by (change (inject_Z (-1)) with (-1)%Q; unfold q in Hhi; lra).
           rewrite <- Zlt_Qlt in Hnonneg. lia.
Qed.

End MathRound.

(* ================================================================== *)
(** * What the conditional lines show *)

(** C6, as the spec has it, fails for a distance so large that [toFixed]
    leaves the decimal notation: 10^24 metres are shown as "1e+21 km",
    which is not a number with two decimal places. *)
Lemma C6_huge_distance_not_two_decimals :
  distance_line hugeDistance =
    "   - Distance: " +:+ "1e+21 km" +:+ JsString.nl /\
  ~ (exists sign body : string,
       (sign = "" \/ sign = "-") /\ two_decimals body /\
       "1e+21 km" = sign +:+ body +:+ " km").
Proof.
  split; [vm_compute; reflexivity|].
  intros (sign & body & Hsign & (whole & frac & -> & Hne & Hdigits & _) & H).
  destruct Hsign as [-> | ->]; [|discriminate].
  rewrite append_empty_l in H.
  destruct whole as [|c [|c' whole]]; [congruence| |].
  - rewrite !append_cons in H. discriminate.
  - rewrite !append_cons in H. injection H as <- <- _. discriminate.
Qed.

(** C6, amended: the text is made of its lines, of which three are
    conditional.  The distance line is there exactly when the summary has
    a distance; for a falsy value (a zero or [NaN]) it shows "N/A", and
    otherwise what [toFixed(2)] makes of the distance over 1000, and
    " km": when that quotient is finite and below 10^21 this is its
    nearest number of hundredths, written with two decimal places.  The
    elevation line is there exactly when the summary has an elevation
    gain; for a falsy value it shows "N/A", and otherwise [Math.round] of
    the value, and " m": for a finite value this is an integer, the
    nearest one.  The description line is there exactly when the
    description is a non-empty string. *)
Theorem C6_conditional_lines (L : string -> string)
  (a : StravaDetailedActivity.t) :
  formatActivityDetails L a =
    title_line a +:+ type_line a +:+ date_line L a +:+ distance_line a +:+
    elevation_line a +:+ description_line a +:+ private_line a +:+
    commute_line a /\
  match StravaDetailedActivity.distance a with
  | None => distance_line a = ""
  | Some d =>
      exists shown : string,
        distance_line a = "   - Distance: " +:+ shown +:+ JsString.nl /\
        if PrimFloat.is_zero d || PrimFloat.is_nan d then shown = "N/A"
        else
          shown = JsNumber.toFixed (d / 1000)%float 2 +:+ " km" /\
          forall q : Q,
            plain_decimal_range (d / 1000)%float = true ->
            real_value (d / 1000)%float = Some q ->
            exists (sign body : string) (n : Z),
              (sign = "" \/ sign = "-") /\
              nearest_integer (Qabs q * 100) n /\
              shows_hundredths body n /\
              shown = sign +:+ body +:+ " km"
  end /\
  match StravaDetailedActivity.total_elevation_gain a with
  | None => elevation_line a = ""
  | Some g =>
      exists shown : string,
        elevation_line a =
          "   - Elevation Gain: " +:+ shown +:+ JsString.nl /\
        if PrimFloat.is_zero g || PrimFloat.is_nan g then shown = "N/A"
        else
          shown =
            JsNumber.Number_toString (JsNumber.Math_round g) +:+ " m" /\
          forall q : Q,
            real_value g = Some q ->
            exists n : Z,
              nearest_integer q n /\
              integer_value (JsNumber.Math_round g) = Some n
  end /\
  match StravaDetailedActivity.description a with
  | Some (nonnull (String c rest)) =>
      description_line a =
        "   - Description: " +:+ String c rest +:+ JsString.nl
  | Some (nonnull EmptyString) | Some null | None => description_line a = ""
  end.
Proof.
  split; [apply formatActivityDetails_lines|].
  unfold distance_line, elevation_line, description_line,
    nonempty_description, shown_distance, shown_elevation, JsNumber.truthy.
  split; [|split].
  - destruct (StravaDetailedActivity.distance a) as [d|]; [|reflexivity].
    eexists. split; [reflexivity|].
    destruct (PrimFloat.is_zero d || PrimFloat.is_nan d); cbn [negb];
      [reflexivity|].
    split; [reflexivity|]. intros q Hrange Hq.
    destruct (toFixed_shows_hundredths _ q Hrange Hq)
      as (sign & body & n & Hsign & Hnear & Hshows & ->).
    exists sign, body, n. split; [exact Hsign|]. split; [exact Hnear|].
    split; [exact Hshows|]. apply append_assoc.
  - destruct (StravaDetailedActivity.total_elevation_gain a) as [g|];
      [|reflexivity].
    eexists. split; [reflexivity|].
    destruct (PrimFloat.is_zero g || PrimFloat.is_nan g); cbn [negb];
      [reflexivity|].
    split; [reflexivity|]. intros q Hq. apply Math_round_nearest, Hq.
  - destruct (StravaDetailedActivity.description a) as [[|[|c desc]]|];
      reflexivity.
Qed.

(** The mock's 5000 metres and 100 metres of gain. *)
Example C6_on_the_mock :
  distance_line mockActivity =
    "   - Distance: " +:+ "5.00 km" +:+ JsString.nl /\
  elevation_line mockActivity =
    "   - Elevation Gain: " +:+ "100 m" +:+ JsString.nl /\
  integer_value (JsNumber.Math_round 99.5%float) = Some 100%Z.
Proof. vm_compute. repeat split. Qed.
